(** * z21-gateway: a model of [gateway.go] and the properties of its
      reachability monitor, subscription arming and command dispatcher.

    The gateway bridges one Z21 device connection to a NATS bus.  The
    functions of [gateway.go] are embedded as programs of a small
    interaction monad ([Prog]): every call that leaves the gateway (the
    device round trip, a bus publish, the clock, the logger, the semaphore
    and the transition channel) is an event whose answer comes from the
    environment.  The per-message workers of the command dispatcher are
    then run concurrently by an interleaving step function.

    Covered: [checkReachability], [doHeartbeatCheck], [subscribeBroadcast],
    the receive branch of [monitorOnlineStatus], [doCmdRequest],
    [handleError], [handleRequest] and [handleCmdMessage], with the message
    structs and their JSON tags; then [publishEvent], the three loops with
    [Start] and [Stop] as a runtime of interleaved steps, and [LoadConfig]
    with [getenv].  [main] is not modelled.  The [z21], [encoding/json],
    [zerolog], [time], [context] and [flag] libraries are modelled as far as
    these functions use them. *)

From Stdlib Require Import ZArith NArith Ascii String DecimalString.
From stdpp Require Import base tactics option list strings gmap.

Open Scope string_scope.

(** ** Constants of [gateway.go] *)

(** [time.Duration] counts nanoseconds. *)
Definition Duration := Z.
Definition Millisecond : Duration := 1000000%Z.
Definition Second : Duration := (1000 * Millisecond)%Z.

Definition HeartbeatInterval : Duration := (20 * Second)%Z.
Definition RequestTimeout : Duration := (500 * Millisecond)%Z.
Definition MaxConcurrentCommands : nat := 4.

(** ** Contexts

    [g.ctx] is the cancellable context made by [NewGateway]; it carries no
    deadline of its own.  [context.Background()] is never cancelled. *)
Inductive Context : Type :=
  | Background
  | GatewayCtx
  | WithTimeout (parent : Context) (d : Duration).

(** The time a call under the context may take, if bounded. *)
Fixpoint timeoutOf (c : Context) : option Duration :=
  match c with
  | Background => None
  | GatewayCtx => None
  | WithTimeout p d =>
      match timeoutOf p with
      | Some d' => Some (Z.min d d')
      | None => Some d
      end
  end.

(** Whether cancelling [g.ctx] reaches a call made under the context. *)
Fixpoint cancellable (c : Context) : bool :=
  match c with
  | Background => false
  | GatewayCtx => true
  | WithTimeout p _ => cancellable p
  end.

(** ** [fmt] and [time] as the gateway uses them *)

(** [fmt.Sprintf("%d", n)] for an unsigned integer. *)
Definition fmt_d (n : N) : string := NilZero.string_of_uint (N.to_uint n).

(** Decimal digits of [n], left-padded with zeros to [width]. *)
Definition pad (width : nat) (n : Z) : string :=
  let s := fmt_d (Z.to_N n) in
  String.concat "" (replicate (width - String.length s) "0") +:+ s.

(** An instant with the zone offset (seconds east of UTC) it is shown in. *)
Record Time : Type := { unixSec : Z; zoneOffset : Z }.

Definition UTC (t : Time) : Time := {| unixSec := unixSec t; zoneOffset := 0 |}.

(** Days since 1970-01-01 to (year, month, day) in the proleptic Gregorian
    calendar. *)
Definition civil_from_days (days : Z) : Z * Z * Z :=
  let z := (days + 719468)%Z in
  let era := (z / 146097)%Z in
  let doe := (z - era * 146097)%Z in
  let yoe := ((doe - doe / 1460 + doe / 36524 - doe / 146096) / 365)%Z in
  let doy := (doe - (365 * yoe + yoe / 4 - yoe / 100))%Z in
  let mp := ((5 * doy + 2) / 153)%Z in
  let d := (doy - (153 * mp + 2) / 5 + 1)%Z in
  let m := (if (mp <? 10)%Z then mp + 3 else mp - 9)%Z in
  let y := (yoe + era * 400 + (if (m <=? 2)%Z then 1 else 0))%Z in
  (y, m, d).

(** The zone suffix of layout [Z07:00]. *)
Definition zoneSuffix (off : Z) : string :=
  if (off =? 0)%Z then "Z"
  else
    let a := Z.abs off in
    (if (off <? 0)%Z then "-" else "+")
      +:+ pad 2 (a / 3600) +:+ ":" +:+ pad 2 ((a / 60) mod 60).

(** [t.Format(time.RFC3339)], layout [2006-01-02T15:04:05Z07:00]. *)
Definition Format_RFC3339 (t : Time) : string :=
  let wall := (unixSec t + zoneOffset t)%Z in
  let secs := (wall mod 86400)%Z in
  let '(y, m, d) := civil_from_days (wall / 86400) in
  pad 4 y +:+ "-" +:+ pad 2 m +:+ "-" +:+ pad 2 d +:+ "T"
    +:+ pad 2 (secs / 3600) +:+ ":" +:+ pad 2 ((secs / 60) mod 60)
    +:+ ":" +:+ pad 2 (secs mod 60) +:+ zoneSuffix (zoneOffset t).

(** ** Device messages and errors

    [z21.Serializable] values.  The gateway looks inside a message in one
    place only (the type assertion to [*z21.SerialNumber]); the content of
    the other message types is kept as opaque text. *)
Inductive Serializable : Type :=
  | SerialNumber (sn : N)
  | BroadcastFlags (flags : Z)
  | CanDetector (body : string)
  | OtherMessage (kind body : string).

(** A Go [error] value is its message; the nil error is [None]. *)
Definition error : Type := string.

Inductive result (A : Type) : Type :=
  | Ok_ (a : A)
  | Err_ (e : error).
Arguments Ok_ {A} a.
Arguments Err_ {A} e.

(** What [zc.SendRcv] returns: the pair [(msg, err)], either of which may
    be nil. *)
Definition DeviceResult : Type := option Serializable * option error.

(** ** JSON documents and [encoding/json] on the gateway's structs *)

#[warnings="-register-all"]
Inductive json : Type :=
  | JNull
  | JBool (b : bool)
  | JString (s : string)
  | JNumber (z : Z)
  | JObject (members : list (string * json)).

Definition keys (j : json) : list string :=
  match j with
  | JObject ms => ms.*1
  | _ => []
  end.

Definition member (k : string) (j : json) : option json :=
  match j with
  | JObject ms => snd <$> List.find (fun m => String.eqb (fst m) k) ms
  | _ => None
  end.

(** What the gateway takes from the [z21] library and from [encoding/json]
    on the library's message types. *)
Class Z21Library : Type := {
  (** broadcast categories and [z21.Mask32] *)
  SYSTEM_UPDATES : Z;
  CAN_DETECTOR_UPDATES : Z;
  Mask32 : Z -> Z;
  (** [json.Unmarshal(data, &z21.CanDetector{})]: the decoded content, or
      the decoding error *)
  unmarshalCanDetector : string -> result string;
  (** [json.Marshal] of a device message *)
  marshalSerializable : Serializable -> result json;
}.

(** [strings.Split(s, sep)] for a one-byte separator. *)
Fixpoint split_on (sep : ascii) (s : string) : list string :=
  match s with
  | EmptyString => [EmptyString]
  | String c r =>
      let parts := split_on sep r in
      if Ascii.eqb c sep then EmptyString :: parts
      else match parts with
           | p :: ps => String c p :: ps
           | [] => [String c EmptyString]
           end
  end.

(** [parseTag]: the name before the first comma, and the options after. *)
Definition parseTag (tag : string) : string * list string :=
  match split_on ","%char tag with
  | name :: opts => (name, opts)
  | [] => (EmptyString, [])
  end.

Definition tagPunctuation : string := "!#$%&()*+-./:;<=>?@[]^_{|}~ ".

Fixpoint contains_char (c : ascii) (s : string) : bool :=
  match s with
  | EmptyString => false
  | String d r => Ascii.eqb c d || contains_char c r
  end.

Definition is_letter_or_digit (c : ascii) : bool :=
  let n := Ascii.N_of_ascii c in
  ((65 <=? n) && (n <=? 90) || (97 <=? n) && (n <=? 122)
   || (48 <=? n) && (n <=? 57))%N.

Fixpoint all_chars (p : ascii -> bool) (s : string) : bool :=
  match s with
  | EmptyString => true
  | String c r => p c && all_chars p r
  end.

(** [isValidTag], on ASCII names (the tags of [gateway.go] are ASCII). *)
Definition isValidTag (s : string) : bool :=
  negb (String.eqb s "")
  && all_chars (fun c => contains_char c tagPunctuation || is_letter_or_digit c) s.

(** The JSON key of a struct field and whether it is [omitempty]; [None]
    for a field tagged ["-"]. *)
Definition fieldKey (goName tag : string) : option (string * bool) :=
  if String.eqb tag "-" then None
  else
    let '(name, opts) := parseTag tag in
    let name := if isValidTag name then name else goName in
    Some (name, bool_decide ("omitempty" ∈ opts)).

(** The field values [gateway.go] marshals. *)
Inductive GoValue : Type :=
  | VBool (b : bool)
  | VString (s : string)
  | VIface (v : option Serializable).

Record StructField : Type := { goName : string; tag : string; val : GoValue }.

Definition isEmptyValue (v : GoValue) : bool :=
  match v with
  | VBool b => negb b
  | VString s => String.eqb s ""
  | VIface None => true
  | VIface (Some _) => false
  end.

Section Marshal.
Context `{lib : Z21Library}.

Definition encodeValue (v : GoValue) : result json :=
  match v with
  | VBool b => Ok_ (JBool b)
  | VString s => Ok_ (JString s)
  | VIface None => Ok_ JNull
  | VIface (Some m) => marshalSerializable m
  end.

Fixpoint marshalFields (fs : list StructField) : result (list (string * json)) :=
  match fs with
  | [] => Ok_ []
  | f :: rest =>
      match fieldKey (goName f) (tag f) with
      | None => marshalFields rest
      | Some (key, omitempty) =>
          if omitempty && isEmptyValue (val f) then marshalFields rest
          else
            match encodeValue (val f) with
            | Err_ e => Err_ e
            | Ok_ j =>
                match marshalFields rest with
                | Err_ e => Err_ e
                | Ok_ ms => Ok_ ((key, j) :: ms)
                end
            end
      end
  end.

(** [json.Marshal] of a struct given by its fields in declaration order. *)
Definition json_Marshal (fs : list StructField) : result json :=
  match marshalFields fs with
  | Ok_ ms => Ok_ (JObject ms)
  | Err_ e => Err_ e
  end.
End Marshal.

(** ** The message structs of [gateway.go] *)

Module StatusMsg.
Record t : Type := { Reachable : bool; Serial : string; TS : string }.

Definition fields (s : t) : list StructField :=
  [ {| goName := "Reachable"; tag := "reachable"; val := VBool (Reachable s) |};
    {| goName := "Serial"; tag := "serial:omitempty"; val := VString (Serial s) |};
    {| goName := "TS"; tag := "ts"; val := VString (TS s) |} ].
End StatusMsg.

Module CmdRequest.
Record t : Type := { Type_ : string; Data : option Serializable }.

Definition fields (r : t) : list StructField :=
  [ {| goName := "Type"; tag := "type"; val := VString (Type_ r) |};
    {| goName := "Data"; tag := "request,omitempty"; val := VIface (Data r) |} ].
End CmdRequest.

Module CmdReply.
Record t : Type := {
  Type_ : string;
  Ok : bool;
  Data : option Serializable;
  Error : string;
  TS : string;
}.

(** [CmdReply{}] *)
Definition zero : t :=
  {| Type_ := ""; Ok := false; Data := None; Error := ""; TS := "" |}.

Definition fields (r : t) : list StructField :=
  [ {| goName := "Type"; tag := "type"; val := VString (Type_ r) |};
    {| goName := "Ok"; tag := "ok"; val := VBool (Ok r) |};
    {| goName := "Data"; tag := "reply,omitempty"; val := VIface (Data r) |};
    {| goName := "Error"; tag := "error,omitempty"; val := VString (Error r) |};
    {| goName := "TS"; tag := "ts"; val := VString (TS r) |} ].
End CmdReply.

(** [*nats.Msg]: the fields the gateway reads. *)
Module NatsMsg.
Record t : Type := { Subject : string; Reply : string; Data : string }.
End NatsMsg.

(** ** The logger

    A [zerolog] event is built by a chain ([Error().Err(err).Str(..)]) and
    written only when the chain ends in [Msg] or [Msgf]. *)
Inductive Level : Type := DebugLevel | InfoLevel | WarnLevel | ErrorLevel.

Record LogEvent : Type := { level : Level; logFields : list (string * string) }.

Definition logger (l : Level) : LogEvent := {| level := l; logFields := [] |}.

Definition Str (k v : string) (e : LogEvent) : LogEvent :=
  {| level := level e; logFields := logFields e ++ [(k, v)] |}.

Definition Bool (k : string) (b : bool) (e : LogEvent) : LogEvent :=
  Str k (if b then "true" else "false") e.

Definition Err (err : error) (e : LogEvent) : LogEvent := Str "error" err e.

(** ** Programs

    The calls a gateway function makes to its environment, and the type of
    the answer to each. *)
Inductive Event : Type :=
  | EvNow                                           (* time.Now() *)
  | EvSendRcv (ctx : Context) (req : Serializable)  (* g.zc.SendRcv(ctx, req) *)
  | EvPublish (subject : string) (data : json)      (* g.nc.Publish(subject, data) *)
  | EvLog (e : LogEvent) (text : string)            (* a written log line *)
  | EvStdout (text : string)                        (* fmt.Printf *)
  | EvSemAcquire        (* select { case g.sem <- struct{}{}: case <-g.ctx.Done(): } *)
  | EvSemRelease        (* <-g.sem *)
  | EvLoadIsOnline                                  (* g.isOnline.Load() *)
  | EvStoreIsOnline (b : bool)                      (* g.isOnline.Store(b) *)
  | EvOfferOnlineStatus (b : bool).  (* select { case g.onlineStatus <- b: default: } *)

Definition Resp (e : Event) : Type :=
  match e with
  | EvNow => Time
  | EvSendRcv _ _ => DeviceResult
  | EvPublish _ _ => option error
  | EvSemAcquire => bool      (* true: slot acquired; false: ctx.Done() observed *)
  | EvLoadIsOnline => bool
  | _ => unit
  end.

Inductive Prog (A : Type) : Type :=
  | Ret (a : A)
  | Vis (e : Event) (k : Resp e -> Prog A).
Arguments Ret {A} a.
Arguments Vis {A} e k.

Fixpoint bind {A B : Type} (p : Prog A) (f : A -> Prog B) : Prog B :=
  match p with
  | Ret a => f a
  | Vis e k => Vis e (fun r => bind (k r) f)
  end.

#[export] Instance Prog_ret : MRet Prog := @Ret.
#[export] Instance Prog_bind : MBind Prog := fun A B f p => bind p f.

Definition trigger (e : Event) : Prog (Resp e) := Vis e Ret.

Definition Now : Prog Time := trigger EvNow.
Definition SendRcv (ctx : Context) (req : Serializable) : Prog DeviceResult :=
  trigger (EvSendRcv ctx req).
Definition Publish (subject : string) (data : json) : Prog (option error) :=
  trigger (EvPublish subject data).
(** [.Msg(text)] (and [.Msgf]) sends the event. *)
Definition Msg (text : string) (e : LogEvent) : Prog unit := trigger (EvLog e text).
Definition Printf (text : string) : Prog unit := trigger (EvStdout text).

(** [defer d] at the head of a function body: [d] runs when the body
    returns, on every return path. *)
Definition defer {A : Type} (d : Prog unit) (body : Prog A) : Prog A :=
  a ← body; d;; mret a.

Definition newline : string := String (ascii_of_nat 10) EmptyString.

(** ** The gateway *)

Record Gateway : Type := { name : string }.

Section Gateway.
Context `{lib : Z21Library}.
Variable g : Gateway.

Definition checkReachability : Prog StatusMsg.t :=
  let ctx := WithTimeout GatewayCtx RequestTimeout in
  Msg "sending hearbeat" (logger DebugLevel);;
  '(msg, err) ← SendRcv ctx (SerialNumber 0);
  let '(reachable, serial) :=
    match err with
    | None =>
        match msg with
        | Some (SerialNumber sn) => (true, fmt_d sn)
        | _ => (false, "")
        end
    | Some _ => (false, "")
    end in
  now ← Now;
  mret {| StatusMsg.Reachable := reachable;
          StatusMsg.Serial := serial;
          StatusMsg.TS := Format_RFC3339 (UTC now) |}.

Definition doHeartbeatCheck : Prog unit :=
  status ← checkReachability;
  wasOnline ← trigger EvLoadIsOnline;
  (if negb (eqb (StatusMsg.Reachable status) wasOnline) then
     trigger (EvStoreIsOnline (StatusMsg.Reachable status));;
     trigger (EvOfferOnlineStatus (StatusMsg.Reachable status))
   else mret tt);;
  match json_Marshal (StatusMsg.fields status) with
  | Err_ err =>
      Msg "failed to marshall status request" (Err err (logger ErrorLevel))
  | Ok_ data =>
      let subject := "z21." +:+ name g +:+ ".status" in
      perr ← Publish subject data;
      match perr with
      | Some err =>
          Msg "failed to publish heartbeat status" (Err err (logger ErrorLevel))
      | None =>
          Msg "NATS pub"
            (Str "serial" (StatusMsg.Serial status)
               (Bool "reachable" (StatusMsg.Reachable status)
                  (Str "subject" subject (logger InfoLevel))))
      end
  end.

Definition subscribeBroadcast : Prog unit :=
  let ctx := Background in
  let flags := Mask32 SYSTEM_UPDATES in
  let flags := Z.lor flags (Mask32 CAN_DETECTOR_UPDATES) in
  '(_, err) ← SendRcv ctx (BroadcastFlags flags);
  match err with
  | Some e =>
      (* [g.logger.Error().Err(err)]: the chain has no [Msg], so the event
         is built and dropped *)
      let _ := Err e (logger ErrorLevel) in
      mret tt
  | None => mret tt
  end.

(** The body of [monitorOnlineStatus] for one value received from
    [g.onlineStatus]. *)
Definition monitorOnlineStatus_recv (isOnline : bool) : Prog unit :=
  if isOnline then
    Msg "Z21 is ONLINE — sending broadcast subscription" (logger InfoLevel);;
    subscribeBroadcast
  else
    Msg "Z21 is OFFLINE" (logger WarnLevel).

Definition handleError (err : error) : Prog CmdReply.t :=
  Msg "NATS msg" (Err err (logger ErrorLevel));;
  now ← Now;
  mret {| CmdReply.Type_ := "";
          CmdReply.Ok := false;
          CmdReply.Data := None;
          CmdReply.Error := "invalid message: " +:+ err;
          CmdReply.TS := Format_RFC3339 now |}.

Definition handleRequest (req : Serializable) : Prog CmdReply.t :=
  Msg "Z21 tx" (logger DebugLevel);;
  let ctx := WithTimeout GatewayCtx RequestTimeout in
  '(resp, err) ← SendRcv ctx req;
  now ← Now;
  let reply := {| CmdReply.Type_ := "";
                  CmdReply.Ok := false;
                  CmdReply.Data := None;
                  CmdReply.Error := "";
                  CmdReply.TS := Format_RFC3339 now |} in
  match err with
  | Some e =>
      Msg "Z21 rx" (Err e (logger ErrorLevel));;
      mret {| CmdReply.Type_ := CmdReply.Type_ reply;
              CmdReply.Ok := false;
              CmdReply.Data := CmdReply.Data reply;
              CmdReply.Error := e;
              CmdReply.TS := CmdReply.TS reply |}
  | None =>
      Msg "Z21 rx" (logger DebugLevel);;
      mret {| CmdReply.Type_ := CmdReply.Type_ reply;
              CmdReply.Ok := true;
              CmdReply.Data := resp;
              CmdReply.Error := CmdReply.Error reply;
              CmdReply.TS := CmdReply.TS reply |}
  end.

Definition discoverSubject : string := "z21." +:+ name g +:+ ".cmd.can.discover".

Definition doCmdRequest (msg : NatsMsg.t) : Prog CmdReply.t :=
  Msg "NATS msg" (Str "subject" (NatsMsg.Subject msg) (logger DebugLevel));;
  if String.eqb (NatsMsg.Subject msg) discoverSubject then
    Printf (NatsMsg.Data msg +:+ newline);;
    match unmarshalCanDetector (NatsMsg.Data msg) with
    | Err_ err => handleError err
    | Ok_ body => handleRequest (CanDetector body)
    end
  else
    Msg "unknown subject" (Str "subject" (NatsMsg.Subject msg) (logger WarnLevel));;
    mret CmdReply.zero.

(** Where a reply goes: the message's reply address, else the fallback. *)
Definition replySubject (msg : NatsMsg.t) : string :=
  if negb (String.eqb (NatsMsg.Reply msg) "") then NatsMsg.Reply msg
  else "z21." +:+ name g +:+ ".reply".

Definition handleCmdMessage (msg : NatsMsg.t) : Prog unit :=
  acquired ← trigger EvSemAcquire;
  if acquired : bool then
    defer (trigger EvSemRelease)
      (reply ← doCmdRequest msg;
       match json_Marshal (CmdReply.fields reply) with
       | Err_ err => Msg "NATS msg" (Err err (logger ErrorLevel))
       | Ok_ data =>
           let subject := replySubject msg in
           perr ← Publish subject data;
           match perr with
           | Some err => Msg "NATS msg" (Err err (logger ErrorLevel))
           | None => mret tt
           end;;
           Msg "NATS pub" (Str "subject" subject (logger InfoLevel))
       end)
  else mret tt.
End Gateway.

(** ** Running one function against an environment

    The environment of one run: what the clock shows, how the device
    answers a round trip, whether the bus accepts a publish, and how the
    select on the semaphore falls.  Each gateway function asks each of these
    at most once per run, so a function of the request is as general as a
    sequence of answers. *)
Record Oracle : Type := {
  o_now : Time;
  o_device : Context -> Serializable -> DeviceResult;
  o_bus : string -> json -> option error;
  o_admit : bool;
}.

(** The gateway fields shared by the heartbeat and the monitor:
    [g.isOnline] and the buffer of [g.onlineStatus] (capacity 1). *)
Record GwState : Type := { isOnline : bool; onlineStatus : option bool }.

Definition answer (o : Oracle) (st : GwState) (e : Event) : Resp e * GwState :=
  match e as e0 return Resp e0 * GwState with
  | EvNow => (o_now o, st)
  | EvSendRcv ctx req => (o_device o ctx req, st)
  | EvPublish subject data => (o_bus o subject data, st)
  | EvLog _ _ => (tt, st)
  | EvStdout _ => (tt, st)
  | EvSemAcquire => (o_admit o, st)
  | EvSemRelease => (tt, st)
  | EvLoadIsOnline => (isOnline st, st)
  | EvStoreIsOnline b => (tt, {| isOnline := b; onlineStatus := onlineStatus st |})
  | EvOfferOnlineStatus b =>
      (tt, match onlineStatus st with
           | None => {| isOnline := isOnline st; onlineStatus := Some b |}
           | Some _ => st    (* buffer full: the default case, value dropped *)
           end)
  end.

(** The result, the final state and the events in the order they happened. *)
Fixpoint run {A : Type} (p : Prog A) (o : Oracle) (st : GwState)
  : A * GwState * list Event :=
  match p with
  | Ret a => (a, st, [])
  | Vis e k =>
      let '(r, st1) := answer o st e in
      let '(a, st2, tr) := run (k r) o st1 in
      (a, st2, e :: tr)
  end.

Definition result_of {A : Type} (x : A * GwState * list Event) : A := x.1.1.
Definition state_of {A : Type} (x : A * GwState * list Event) : GwState := x.1.2.
Definition trace_of {A : Type} (x : A * GwState * list Event) : list Event := x.2.

(** Projections of a trace. *)
Definition deviceCalls (tr : list Event) : list (Context * Serializable) :=
  omap (fun e => match e with EvSendRcv c r => Some (c, r) | _ => None end) tr.

Definition publishes (tr : list Event) : list (string * json) :=
  omap (fun e => match e with EvPublish s d => Some (s, d) | _ => None end) tr.

Definition offers (tr : list Event) : list bool :=
  omap (fun e => match e with EvOfferOnlineStatus b => Some b | _ => None end) tr.

Definition logLines (l : Level) (tr : list Event) : list string :=
  omap (fun e => match e with
                 | EvLog ev text =>
                     match level ev, l with
                     | DebugLevel, DebugLevel | InfoLevel, InfoLevel
                     | WarnLevel, WarnLevel | ErrorLevel, ErrorLevel => Some text
                     | _, _ => None
                     end
                 | _ => None
                 end) tr.

(** A library instance to evaluate the functions on: the flag values of
    the Z21 LAN protocol, a decoder that accepts objects, an encoder that
    fails on messages of kind ["raw"]. *)
Definition sampleLibrary : Z21Library := {|
  SYSTEM_UPDATES := 0x00000100;
  CAN_DETECTOR_UPDATES := 0x00080000;
  Mask32 := fun x => Z.land x 0xFFFFFFFF;
  unmarshalCanDetector := fun data =>
    match data with
    | String "{" _ => Ok_ data
    | _ => Err_ "invalid character"
    end;
  marshalSerializable := fun m =>
    match m with
    | SerialNumber sn => Ok_ (JObject [("serial", JNumber (Z.of_N sn))])
    | BroadcastFlags f => Ok_ (JObject [("flags", JNumber f)])
    | CanDetector body => Ok_ (JString body)
    | OtherMessage "raw" _ => Err_ "json: unsupported type"
    | OtherMessage _ body => Ok_ (JString body)
    end;
|}.

Definition sampleOracle (dev : DeviceResult) : Oracle := {|
  o_now := {| unixSec := 1700000000; zoneOffset := 0 |};
  o_device := fun _ _ => dev;
  o_bus := fun _ _ => None;
  o_admit := true;
|}.

Definition main : Gateway := {| name := "main" |}.
Definition offline : GwState := {| isOnline := false; onlineStatus := None |}.

(** ** The dispatcher's workers, interleaved

    Every delivered message starts a worker running [handleCmdMessage].
    Workers share the semaphore [g.sem], a channel of capacity
    [MaxConcurrentCommands]: a send succeeds only while fewer than that many
    tokens are buffered, a receive takes one token out.  A device round trip
    takes two steps, the request going out and the answer coming back;
    between the two the request is in flight. *)
Inductive Control : Type :=
  | Ready (p : Prog unit)
  | InFlight (ctx : Context) (req : Serializable) (k : DeviceResult -> Prog unit).

(** [held] records whether the worker's last semaphore operation was its
    acquire; no step reads it. *)
Record Worker : Type := { held : bool; control : Control }.

Record System : Type := {
  sem : nat;                 (* tokens buffered in g.sem *)
  cancelled : bool;          (* g.ctx is done *)
  shared : GwState;
  workers : list Worker;
}.

Inductive Action : Type :=
  | Deliver (msg : NatsMsg.t)      (* go g.handleCmdMessage(m) *)
  | Cancel                         (* g.cancel() *)
  | Step (i : nat) (o : Oracle).   (* worker [i] takes its next step *)

Definition stepWorker (o : Oracle) (n : nat) (done : bool) (st : GwState) (w : Worker)
  : option (nat * GwState * Worker) :=
  match control w with
  | InFlight ctx req k =>
      Some (n, st, {| held := held w; control := Ready (k (o_device o ctx req)) |})
  | Ready (Ret _) => None
  | Ready (Vis e k) =>
      match e as e0 return (Resp e0 -> Prog unit) -> option (nat * GwState * Worker) with
      | EvSemAcquire => fun k =>
          if o_admit o then
            if decide (n < MaxConcurrentCommands)
            then Some (S n, st, {| held := true; control := Ready (k true) |})
            else None
          else
            if done
            then Some (n, st, {| held := held w; control := Ready (k false) |})
            else None
      | EvSemRelease => fun k =>
          match n with
          | 0 => None
          | S n' => Some (n', st, {| held := false; control := Ready (k tt) |})
          end
      | EvSendRcv ctx req => fun k =>
          Some (n, st, {| held := held w; control := InFlight ctx req k |})
      | e' => fun k =>
          let '(r, st') := answer o st e' in
          Some (n, st', {| held := held w; control := Ready (k r) |})
      end k
  end.

Section Dispatcher.
Context `{lib : Z21Library}.
Variable g : Gateway.

Definition spawn (msg : NatsMsg.t) : Worker :=
  {| held := false; control := Ready (handleCmdMessage g msg) |}.

Definition step (a : Action) (s : System) : option System :=
  match a with
  | Deliver msg =>
      Some {| sem := sem s; cancelled := cancelled s; shared := shared s;
              workers := workers s ++ [spawn msg] |}
  | Cancel =>
      Some {| sem := sem s; cancelled := true; shared := shared s;
              workers := workers s |}
  | Step i o =>
      w ← workers s !! i;
      '(n, st, w') ← stepWorker o (sem s) (cancelled s) (shared s) w;
      Some {| sem := n; cancelled := cancelled s; shared := st;
              workers := <[i := w']> (workers s) |}
  end.

Fixpoint exec (acts : list Action) (s : System) : option System :=
  match acts with
  | [] => Some s
  | a :: rest => s' ← step a s; exec rest s'
  end.
End Dispatcher.

(** The gateway as [NewGateway] leaves it: an empty semaphore of capacity
    [MaxConcurrentCommands], an empty transition channel of capacity 1, the
    context not cancelled, [isOnline] false, and no worker yet. *)
Definition init : System :=
  {| sem := 0; cancelled := false;
     shared := {| isOnline := false; onlineStatus := None |}; workers := [] |}.

Definition inFlight (w : Worker) : bool :=
  match control w with
  | InFlight _ _ _ => true
  | Ready _ => false
  end.

Definition finished (w : Worker) : bool :=
  match control w with
  | Ready (Ret _) => true
  | _ => false
  end.

Definition count (p : Worker -> bool) (ws : list Worker) : nat :=
  length (List.filter p ws).

Definition b2n (b : bool) : nat := if b then 1 else 0.

(** The slot discipline of a program: started with the slot held or not
    ([h]), it acquires only when it does not hold, releases and contacts the
    device only while it holds, and [Q] holds of the result and of the slot
    on every return. *)
Fixpoint wp {A : Type} (p : Prog A) (Q : A -> bool -> Prop) (h : bool) : Prop :=
  match p with
  | Ret a => Q a h
  | Vis e k =>
      match e as e0 return (Resp e0 -> Prog A) -> Prop with
      | EvSemAcquire => fun k => h = false ∧ wp (k true) Q true ∧ wp (k false) Q false
      | EvSemRelease => fun k => h = true ∧ wp (k tt) Q false
      | EvSendRcv _ _ => fun k => h = true ∧ ∀ r, wp (k r) Q true
      | _ => fun k => ∀ r, wp (k r) Q h
      end k
  end.

(** The program returns the slot before it ends, on every path. *)
Definition slotSafe (p : Prog unit) (h : bool) : Prop := wp p (fun _ h' => h' = false) h.

Definition workerOk (w : Worker) : Prop :=
  match control w with
  | Ready p => slotSafe p (held w)
  | InFlight _ _ k => held w = true ∧ ∀ r, slotSafe (k r) true
  end.

Definition Inv (s : System) : Prop :=
  sem s = count held (workers s)
  ∧ (sem s ≤ MaxConcurrentCommands)%nat
  ∧ Forall workerOk (workers s).

(** ** The heartbeat and the monitor side by side

    [heartbeatLoop] calls [doHeartbeatCheck] once at start and once per
    tick; [monitorOnlineStatus] receives from [g.onlineStatus] whenever a
    value is buffered.  The two loops interleave in any order. *)
Inductive LoopAction : Type :=
  | Tick (o : Oracle)       (* the heartbeat loop probes *)
  | Receive (o : Oracle).   (* the monitor takes the buffered value, if any *)

Section Loops.
Context `{lib : Z21Library}.
Variable g : Gateway.

Definition loopStep (a : LoopAction) (st : GwState) : GwState * list Event :=
  match a with
  | Tick o =>
      let r := run (doHeartbeatCheck g) o st in
      (state_of r, trace_of r)
  | Receive o =>
      match onlineStatus st with
      | None => (st, [])
      | Some v =>
          let r := run (monitorOnlineStatus_recv v) o
                     {| isOnline := isOnline st; onlineStatus := None |} in
          (state_of r, trace_of r)
      end
  end.

Fixpoint loops (acts : list LoopAction) (st : GwState) : GwState * list Event :=
  match acts with
  | [] => (st, [])
  | a :: rest =>
      let '(st1, tr1) := loopStep a st in
      let '(st2, tr2) := loops rest st1 in
      (st2, (tr1 ++ tr2)%list)
  end.
End Loops.

Definition ticks (acts : list LoopAction) : nat :=
  length (List.filter (fun a => match a with Tick _ => true | Receive _ => false end) acts).

(** The probe a tick makes: the answer of the device to the identity
    query sent by [checkReachability]. *)
Definition probe (o : Oracle) : DeviceResult :=
  o_device o (WithTimeout GatewayCtx RequestTimeout) (SerialNumber 0).

(** The reachable flag [checkReachability] derives from a probe. *)
Definition reachableOf (dev : DeviceResult) : bool :=
  match dev with
  | (Some (SerialNumber _), None) => true
  | _ => false
  end.

(** ** The event relay

    [fmt]'s rendering of a device message under the verb [%s]. *)
Class Z21Stringer : Type := { msgString : Serializable -> string }.

(** [fmt.Sprintf("%s", ev)] for an interface value that may be nil. *)
Definition fmt_s `{str : Z21Stringer} (ev : option Serializable) : string :=
  match ev with
  | Some m => msgString m
  | None => "%!s(<nil>)"
  end.

Section Relay.
Context `{lib : Z21Library} `{str : Z21Stringer}.
Variable g : Gateway.

Definition publishEvent (ev : option Serializable) : Prog unit :=
  match encodeValue (VIface ev) with
  | Err_ err => Msg "failed to marshall event" (Err err (logger ErrorLevel))
  | Ok_ data =>
      let subject := "z21." +:+ name g +:+ ".event." +:+ fmt_s ev in
      perr ← Publish subject data;
      match perr with
      | Some err => Msg "failed to publish" (Err err (logger ErrorLevel))
      | None => Msg "NATS pub" (Str "subject" subject (logger InfoLevel))
      end
  end.
End Relay.

(** ** The gateway's life: [Start], the three loops, the workers, [Stop]

    The main goroutine runs [Start] and later [Stop], statement by
    statement.  Each loop takes one iteration per step: the branch of its
    select that ran, with the body of that branch.  The branch on
    [g.ctx.Done()] can run only once the context is cancelled, the receive
    from [g.onlineStatus] only when a value is buffered, [g.wg.Wait()] only
    when the counter is zero.  Workers step as in the dispatcher above. *)
Inductive Routine : Type := HeartbeatLoop | MonitorOnlineStatus | Z21EventsLoop.

#[export] Instance Routine_eq_dec : EqDecision Routine.
Proof. solve_decision. Defined.

Inductive Phase : Type :=
  | NotStarted
  | Spawned      (* started, before its first select *)
  | Looping
  | Exited.

(** The next statement of the main goroutine. *)
Inductive MainPc : Type :=
  | StartHeartbeat | StartMonitor | StartEvents | StartCommands
  | Started (err : option error)     (* [Start] has returned [err] *)
  | StopClose | StopWait | StopFlush
  | Stopped.

(** What the runtime records, in order; [who] is the loop an event of a
    gateway function belongs to, [None] for the main goroutine. *)
Inductive Act : Type :=
  | AGw (who : option Routine) (e : Event)
  | AWgAdd
  | AGo (r : Routine)
  | ASubscribe (subject : string) (err : option error)
  | ANewTicker (d : Duration)
  | ATickerStop
  | AWgDone (r : Routine)
  | ACancel
  | AZcClose
  | AWgWait
  | ANcFlush.

Record Runtime : Type := {
  sys : System;            (* semaphore, context, shared fields, workers *)
  wg : nat;                (* g.wg *)
  hb : Phase;
  mon : Phase;
  ev : Phase;
  subscribed : bool;       (* the command subscription is in place *)
  pc : MainPc;
  zcClosed : bool;
  acts : list Act;
}.

Inductive RtAction : Type :=
  | MainStep (subErr : option error)   (* [subErr]: what [nc.Subscribe] returns *)
  | Signal                             (* the parent context is cancelled *)
  | HbStep (sel : option Oracle)       (* [None]: the Done branch; else a probe *)
  | MonStep (sel : option Oracle)      (* [None]: the Done branch; else a receive *)
  | EvStep (sel : option (option Serializable * Oracle))
  | Dispatch (a : Action).             (* a delivery or a worker step *)

Definition withShared (s : System) (st : GwState) : System :=
  {| sem := sem s; cancelled := cancelled s; shared := st; workers := workers s |}.

Definition withCancelled (s : System) : System :=
  {| sem := sem s; cancelled := true; shared := shared s; workers := workers s |}.

Section Lifecycle.
Context `{lib : Z21Library} `{str : Z21Stringer}.
Variable g : Gateway.

(** A loop runs the body [p] of one select branch. *)
Definition loopBody (r : Routine) (p : Prog unit) (o : Oracle) (st : GwState) (rt : Runtime)
    (before : list Act) (hb' mon' ev' : Phase) : Runtime :=
  let res := run p o st in
  {| sys := withShared (sys rt) (state_of res); wg := wg rt;
     hb := hb'; mon := mon'; ev := ev';
     subscribed := subscribed rt; pc := pc rt; zcClosed := zcClosed rt;
     acts := (acts rt ++ before ++ (AGw (Some r) <$> trace_of res))%list |}.

(** A loop takes its Done branch and returns; its deferred calls run. *)
Definition loopExit (deferred : list Act) (hb' mon' ev' : Phase) (rt : Runtime)
  : option Runtime :=
  if cancelled (sys rt) then
    match wg rt with
    | 0 => None           (* [wg.Done] below zero panics *)
    | S n =>
        Some {| sys := sys rt; wg := n; hb := hb'; mon := mon'; ev := ev';
                subscribed := subscribed rt; pc := pc rt; zcClosed := zcClosed rt;
                acts := (acts rt ++ deferred)%list |}
    end
  else None.

(** The main goroutine's statement: log, [g.wg.Add(1)], [go] the loop. *)
Definition launch (text : string) (r : Routine) (hb' mon' ev' : Phase) (next : MainPc)
    (rt : Runtime) : Runtime :=
  {| sys := sys rt; wg := S (wg rt); hb := hb'; mon := mon'; ev := ev';
     subscribed := subscribed rt; pc := next; zcClosed := zcClosed rt;
     acts := (acts rt ++ [AGw None (EvLog (logger DebugLevel) text); AWgAdd; AGo r])%list |}.

Definition mainTo (next : MainPc) (s : System) (closed : bool) (new : list Act)
    (rt : Runtime) : Runtime :=
  {| sys := s; wg := wg rt; hb := hb rt; mon := mon rt; ev := ev rt;
     subscribed := subscribed rt; pc := next; zcClosed := closed;
     acts := (acts rt ++ new)%list |}.

(** [natsCommandsLoop], the last statement of [Start]. *)
Definition natsCommandsLoop (subErr : option error) (rt : Runtime) : Runtime :=
  let subject := "z21." +:+ name g +:+ ".cmd.can.discover" in
  {| sys := sys rt; wg := wg rt; hb := hb rt; mon := mon rt; ev := ev rt;
     subscribed := bool_decide (subErr = None);
     pc := Started subErr; zcClosed := zcClosed rt;
     acts := (acts rt
              ++ [AGw None (EvLog (logger DebugLevel) "starting NATS commands loop");
                  AGw None (EvLog (Str "subject" subject (logger InfoLevel)) "NATS sub");
                  ASubscribe subject subErr])%list |}.

Definition mainStep (subErr : option error) (rt : Runtime) : option Runtime :=
  match pc rt with
  (* Start *)
  | StartHeartbeat =>
      Some (launch "starting Z21 heartbeat loop" HeartbeatLoop
              Spawned (mon rt) (ev rt) StartMonitor rt)
  | StartMonitor =>
      Some (launch "starting Z21 online status monitor" MonitorOnlineStatus
              (hb rt) Looping (ev rt) StartEvents rt)
  | StartEvents =>
      Some (launch "starting Z21 events loop" Z21EventsLoop
              (hb rt) (mon rt) Looping StartCommands rt)
  | StartCommands => Some (natsCommandsLoop subErr rt)
  (* Stop *)
  | Started _ => Some (mainTo StopClose (withCancelled (sys rt)) (zcClosed rt) [ACancel] rt)
  | StopClose => Some (mainTo StopWait (sys rt) true [AZcClose] rt)
  | StopWait =>
      match wg rt with
      | 0 => Some (mainTo StopFlush (sys rt) (zcClosed rt) [AWgWait] rt)
      | S _ => None
      end
  | StopFlush => Some (mainTo Stopped (sys rt) (zcClosed rt) [ANcFlush] rt)
  | Stopped => None
  end.

Definition heartbeatLoop (sel : option Oracle) (rt : Runtime) : option Runtime :=
  match hb rt, sel with
  | Spawned, Some o =>
      (* the ticker is made, then the first check runs before any select *)
      Some (loopBody HeartbeatLoop (doHeartbeatCheck g) o (shared (sys rt)) rt
              [ANewTicker HeartbeatInterval] Looping (mon rt) (ev rt))
  | Looping, Some o =>
      Some (loopBody HeartbeatLoop (doHeartbeatCheck g) o (shared (sys rt)) rt
              [] Looping (mon rt) (ev rt))
  | Looping, None =>
      loopExit [ATickerStop; AWgDone HeartbeatLoop] Exited (mon rt) (ev rt) rt
  | _, _ => None
  end.

Definition monitorOnlineStatus (sel : option Oracle) (rt : Runtime) : option Runtime :=
  match mon rt, sel with
  | Looping, Some o =>
      match onlineStatus (shared (sys rt)) with
      | Some v =>
          Some (loopBody MonitorOnlineStatus (monitorOnlineStatus_recv v) o
                  {| isOnline := isOnline (shared (sys rt)); onlineStatus := None |} rt
                  [] (hb rt) Looping (ev rt))
      | None => None
      end
  | Looping, None => loopExit [AWgDone MonitorOnlineStatus] (hb rt) Exited (ev rt) rt
  | _, _ => None
  end.

Definition z21EventsLoop (sel : option (option Serializable * Oracle)) (rt : Runtime)
  : option Runtime :=
  match ev rt, sel with
  | Looping, Some (e, o) =>
      Some (loopBody Z21EventsLoop (publishEvent g e) o (shared (sys rt)) rt
              [] (hb rt) (mon rt) Looping)
  | Looping, None => loopExit [AWgDone Z21EventsLoop] (hb rt) (mon rt) Exited rt
  | _, _ => None
  end.

Definition withSys (rt : Runtime) (s : System) : Runtime :=
  {| sys := s; wg := wg rt; hb := hb rt; mon := mon rt; ev := ev rt;
     subscribed := subscribed rt; pc := pc rt; zcClosed := zcClosed rt;
     acts := acts rt |}.

(** The subscription handler starts a worker per delivered message; the
    workers step as in [step]. *)
Definition workerStep (a : Action) (rt : Runtime) : option Runtime :=
  match a with
  | Deliver _ => if subscribed rt then withSys rt <$> step g a (sys rt) else None
  | Step _ _ => withSys rt <$> step g a (sys rt)
  | Cancel => None
  end.

Definition rtStep (a : RtAction) (rt : Runtime) : option Runtime :=
  match a with
  | MainStep subErr => mainStep subErr rt
  | Signal => Some (mainTo (pc rt) (withCancelled (sys rt)) (zcClosed rt) [] rt)
  | HbStep sel => heartbeatLoop sel rt
  | MonStep sel => monitorOnlineStatus sel rt
  | EvStep sel => z21EventsLoop sel rt
  | Dispatch a => workerStep a rt
  end.

Fixpoint rtExec (steps : list RtAction) (rt : Runtime) : option Runtime :=
  match steps with
  | [] => Some rt
  | a :: rest => rt' ← rtStep a rt; rtExec rest rt'
  end.
End Lifecycle.

(** The runtime when [NewGateway] has returned and [Start] is about to run. *)
Definition rtInit : Runtime :=
  {| sys := init; wg := 0; hb := NotStarted; mon := NotStarted; ev := NotStarted;
     subscribed := false; pc := StartHeartbeat; zcClosed := false; acts := [] |}.

Definition live (p : Phase) : nat :=
  match p with
  | Spawned | Looping => 1
  | NotStarted | Exited => 0
  end.

(** The publishes a loop has made. *)
Definition loopPublishes (r : Routine) (l : list Act) : list (string * json) :=
  omap (fun a => match a with
                 | AGw (Some r') (EvPublish s d) =>
                     match r, r' with
                     | HeartbeatLoop, HeartbeatLoop
                     | MonitorOnlineStatus, MonitorOnlineStatus
                     | Z21EventsLoop, Z21EventsLoop => Some (s, d)
                     | _, _ => None
                     end
                 | _ => None
                 end) l.

(** The events of gateway functions run by the loops. *)
Definition loopEvents (l : list Act) : list Event :=
  omap (fun a => match a with AGw (Some _) e => Some e | _ => None end) l.

(** ** Process configuration ([LoadConfig], [getenv])

    The environment is the table [os.Getenv] reads; a variable that is
    not set reads as the empty string. *)
Definition Getenv (env : gmap string string) (key : string) : string :=
  default "" (env !! key).

Definition getenv (env : gmap string string) (key def : string) : string :=
  let v := Getenv env key in
  if negb (String.eqb v "") then v else def.

(** How a process ends, or what a call returns. *)
Inductive Outcome (A : Type) : Type :=
  | Returns (a : A)
  | Exits (code : Z) (stdout stderr : list string).
Arguments Returns {A} a.
Arguments Exits {A} code stdout stderr.

(** *** The [flag] package, for string flags

    One command-line argument as [parseOne] reads it. *)
Inductive ArgKind : Type :=
  | NonFlag                                   (* ends the flags, stays an argument *)
  | Terminator                                (* ["--"] *)
  | BadSyntax
  | FlagArg (name : string) (value : option string).

(** The first ['='] of [s]: what is before it and what is after it. *)
Fixpoint cutEquals (s : string) : option (string * string) :=
  match s with
  | EmptyString => None
  | String c r =>
      if Ascii.eqb c "="%char then Some (EmptyString, r)
      else match cutEquals r with
           | Some (n, v) => Some (String c n, v)
           | None => None
           end
  end.

Definition classify (s : string) : ArgKind :=
  match s with
  | String "-" (String "-" EmptyString) => Terminator
  | String "-" (String c rest) =>
      let name := if Ascii.eqb c "-"%char then rest else String c rest in
      match name with
      | EmptyString => BadSyntax
      | String d tail =>
          if Ascii.eqb d "-"%char || Ascii.eqb d "="%char then BadSyntax
          else match cutEquals tail with      (* an equals sign cannot be first *)
               | Some (n, v) => FlagArg (String d n) (Some v)
               | None => FlagArg name None
               end
      end
  | _ => NonFlag
  end.

(** What [f.Usage] does: it prints and returns, or it ends the process. *)
Inductive UsageResult : Type :=
  | UsagePrints (stdout : list string)
  | UsageExits (code : Z) (stdout : list string).

Section Flag.
(** The variables flags are bound to, and their values. *)
Variable Var : Type.
Variable Vals : Type.
Variable set : Var -> string -> Vals -> Vals.
(** [f.formal]: the defined flag names. *)
Variable formal : string -> option Var.
Variable usage : UsageResult.

(** A failure of [Parse] under [ExitOnError]: the message goes to standard
    error, the usage function runs, then the process exits with 2 (0 after
    a request for help), unless the usage function has ended it before. *)
Definition parseFails (help : bool) (errs : list string) : Outcome Vals :=
  match usage with
  | UsageExits code out => Exits code out errs
  | UsagePrints out => Exits (if help then 0 else 2) out errs
  end.

(** [CommandLine.Parse(args)]: [pending] is a flag read without a value,
    whose value is the next argument. *)
Fixpoint Parse (pending : option (string * Var)) (vals : Vals) (args : list string)
  : Outcome Vals :=
  match pending, args with
  | Some (name, _), [] => parseFails false ["flag needs an argument: -" +:+ name]
  | Some (_, x), a :: rest => Parse None (set x a vals) rest
  | None, [] => Returns vals
  | None, a :: rest =>
      match classify a with
      | NonFlag | Terminator => Returns vals
      | BadSyntax => parseFails false ["bad flag syntax: " +:+ a]
      | FlagArg name value =>
          match formal name with
          | None =>
              if String.eqb name "help" || String.eqb name "h"
              then parseFails true []
              else parseFails false ["flag provided but not defined: -" +:+ name]
          | Some x =>
              match value with
              | Some v => Parse None (set x v vals) rest
              | None => Parse (Some (name, x)) vals rest
              end
          end
      end
  end.
End Flag.

(** *** [LoadConfig] *)

Definition tab : string := String (ascii_of_nat 9) EmptyString.

Definition usageStr : string :=
  String.concat newline
    [ "The z21-gateway is a lightweight gateway application that bridges a z21 device";
      "to a NATS message bus.";
      "";
      "Usage: z21-gateway [options]";
      "";
      "Gateway Options:";
      tab +:+ "-zc, --z21_addr <host[:port]>  z21 address (default: 127.0.0.1:21105)";
      tab +:+ "-nc, --nats_url <host>         NATS server URL (default: nats://127.0.0.1:4222)";
      tab +:+ "-n, --name";
      tab +:+ "    --z21_name <z21_name>      z21 name (default: main)";
      "";
      "Environment Variables:";
      tab +:+ "Z21_NAME (overridden by --z21_name)";
      tab +:+ "Z21_ADDR (overridden by --z21_addr)";
      tab +:+ "NATS_URL (overridden by --nats_url)";
      "" ].

(** The logger [LoadConfig] builds: console output on standard error,
    level debug, the context field [component], timestamps. *)
Record LoggerConfig : Type := {
  minLevel : Level;
  context : list (string * string);
  timestamps : bool;
}.

Module Config.
Record t : Type := {
  Z21Name : string;
  Z21Addr : string;
  NATSURL : string;
  HeartbeatInterval : Duration;
  Logger : LoggerConfig;
}.
End Config.

(** The library defaults [z21.DefaultName], [z21.DefaultURL] and
    [nats.DefaultURL]. *)
Class Defaults : Type := {
  z21_DefaultName : string;
  z21_DefaultURL : string;
  nats_DefaultURL : string;
}.

(** The three variables the six flags are bound to. *)
Inductive ConfigVar : Type := z21Name | z21Addr | natsURL.

Definition ConfigVals : Type := string * string * string.

Definition setVar (x : ConfigVar) (v : string) (vals : ConfigVals) : ConfigVals :=
  let '(n, a, u) := vals in
  match x with
  | z21Name => (v, a, u)
  | z21Addr => (n, v, u)
  | natsURL => (n, a, v)
  end.

(** The flags [LoadConfig] defines. *)
Definition configFlags (name : string) : option ConfigVar :=
  if String.eqb name "z21_name" then Some z21Name
  else if String.eqb name "n" then Some z21Name
  else if String.eqb name "z21_addr" then Some z21Addr
  else if String.eqb name "zc" then Some z21Addr
  else if String.eqb name "nats_url" then Some natsURL
  else if String.eqb name "nc" then Some natsURL
  else None.

(** [args] is [os.Args[1:]]. *)
Definition LoadConfig `{dflt : Defaults} (env : gmap string string) (args : list string)
  : Outcome Config.t :=
  let defaultZ21Name := getenv env "Z21_NAME" z21_DefaultName in
  let defaultZ21Addr := getenv env "Z21_ADDR" z21_DefaultURL in
  let defaultNATSURL := getenv env "NATS_URL" nats_DefaultURL in
  (* flag.Usage prints the usage text and exits with 0 *)
  let usage := UsageExits 0 [usageStr +:+ newline] in
  match Parse ConfigVar ConfigVals setVar configFlags usage None
          (defaultZ21Name, defaultZ21Addr, defaultNATSURL) args with
  | Exits code out errs => Exits code out errs
  | Returns (n, a, u) =>
      Returns {| Config.Z21Name := n;
                 Config.Z21Addr := a;
                 Config.NATSURL := u;
                 Config.HeartbeatInterval := (30 * Second)%Z;
                 Config.Logger := {| minLevel := DebugLevel;
                                     context := [("component", "z21gw")];
                                     timestamps := true |} |}
  end.

(** What the steps of a schedule ask of the loops. *)
Definition receivedEvents (steps : list RtAction) : list (option Serializable) :=
  omap (fun a => match a with EvStep (Some (e, _)) => Some e | _ => None end) steps.

Definition probes (steps : list RtAction) : nat :=
  length (List.filter (fun a => match a with HbStep (Some _) => true | _ => false end) steps).

(** What the relay publishes for an event: nothing when it does not
    serialize. *)
Definition relayed `{lib : Z21Library} `{str : Z21Stringer} (g : Gateway)
    (e : option Serializable) : option (string * json) :=
  match encodeValue (VIface e) with
  | Ok_ data => Some ("z21." +:+ name g +:+ ".event." +:+ fmt_s e, data)
  | Err_ _ => None
  end.

(** A list of flags that starts with [b] and changes at every position. *)
Fixpoint alternates (b : bool) (l : list bool) : Prop :=
  match l with
  | [] => True
  | x :: rest => x = b ∧ alternates (negb b) rest
  end.

(** The reachable flag of the last tick of a schedule, [d] if it has none. *)
Fixpoint lastReachable (d : bool) (acts : list LoopAction) : bool :=
  match acts with
  | [] => d
  | Tick o :: rest => lastReachable (reachableOf (probe o)) rest
  | Receive _ :: rest => lastReachable d rest
  end.

(** The phases the loops can be in at each statement of the main
    goroutine. *)
Definition phasesAt (p : MainPc) (h m e : Phase) : Prop :=
  match p with
  | StartHeartbeat => h = NotStarted ∧ m = NotStarted ∧ e = NotStarted
  | StartMonitor => h ≠ NotStarted ∧ m = NotStarted ∧ e = NotStarted
  | StartEvents => h ≠ NotStarted ∧ m ≠ NotStarted ∧ e = NotStarted
  | StartCommands | Started _ | StopClose | StopWait =>
      h ≠ NotStarted ∧ m ≠ NotStarted ∧ e ≠ NotStarted
  | StopFlush | Stopped => h = Exited ∧ m = Exited ∧ e = Exited
  end.

Definition RtInv (rt : Runtime) : Prop :=
  wg rt = (live (hb rt) + live (mon rt) + live (ev rt))%nat
  ∧ phasesAt (pc rt) (hb rt) (mon rt) (ev rt)
  ∧ (subscribed rt = false → workers (sys rt) = [])
  ∧ match pc rt with
    | StartHeartbeat | StartMonitor | StartEvents | StartCommands => subscribed rt = false
    | Started e => subscribed rt = bool_decide (e = None)
    | _ => True
    end
  ∧ match pc rt with
    | StopClose | StopWait | StopFlush | Stopped => cancelled (sys rt) = true
    | _ => True
    end
  ∧ (hb rt = Looping ∨ hb rt = Exited →
     (1 ≤ length (loopPublishes HeartbeatLoop (acts rt)))%nat)
  ∧ Inv (sys rt).

(** A rendering of messages, and a life of the gateway, to evaluate the
    runtime on: start, a probe, three events (the second does not
    serialize), the monitor's receive, a failed probe, one command admitted,
    then the stop. *)
Definition sampleStringer : Z21Stringer := {|
  msgString := fun m =>
    match m with
    | SerialNumber _ => "serial"
    | BroadcastFlags _ => "flags"
    | CanDetector _ => "can"
    | OtherMessage kind _ => kind
    end;
|}.

Definition sampleLife : list RtAction :=
  let ok := sampleOracle (Some (SerialNumber 12345), None) in
  let failed := sampleOracle (None, Some "context deadline exceeded") in
  let msg := {| NatsMsg.Subject := "z21.main.cmd.can.discover";
                NatsMsg.Reply := "_INBOX.1"; NatsMsg.Data := "{}" |} in
  [ MainStep None; MainStep None; MainStep None; MainStep None;
    HbStep (Some ok);
    EvStep (Some (Some (CanDetector "{7}"), ok));
    EvStep (Some (Some (OtherMessage "raw" "0a"), ok));
    EvStep (Some (Some (SerialNumber 5), ok));
    MonStep (Some ok);
    HbStep (Some failed);
    Dispatch (Deliver msg); Dispatch (Step 0 ok);
    MainStep None;
    HbStep None; MonStep None; EvStep None;
    MainStep None; MainStep None; MainStep None ].

(** The arming requests in a trace, and the transition a state still has
    buffered for the monitor. *)
Definition armings (tr : list Event) : nat :=
  length (List.filter (fun c => match c with
                                | (_, BroadcastFlags _) => true
                                | _ => false
                                end) (deviceCalls tr)).

Definition onlineOffers (tr : list Event) : nat :=
  length (List.filter (fun b : bool => b) (offers tr)).

Definition pendingOnline (st : GwState) : nat :=
  match onlineStatus st with
  | Some true => 1
  | _ => 0
  end.

(** The program ends within [n] steps of its worker, whatever the answers;
    a device round trip takes two steps. *)
Fixpoint endsWithin {A : Type} (n : nat) (p : Prog A) {struct p} : Prop :=
  match p with
  | Ret _ => True
  | Vis e k =>
      match n with
      | 0 => False
      | S n' =>
          match e as e0 return (Resp e0 -> Prog A) -> Prop with
          | EvSendRcv _ _ => fun k =>
              match n' with
              | 0 => False
              | S n'' => ∀ r, endsWithin n'' (k r)
              end
          | _ => fun k => ∀ r, endsWithin n' (k r)
          end k
      end
  end.

Definition workerWithin (n : nat) (w : Worker) : Prop :=
  match control w with
  | Ready p => endsWithin n p
  | InFlight _ _ k => ∃ n', n = S n' ∧ ∀ r, endsWithin n' (k r)
  end.

(** The steps worker [i] takes in a schedule. *)
Definition stepsOf (i : nat) (acts : list Action) : nat :=
  length (List.filter (fun a => match a with
                                | Step j _ => bool_decide (i = j)
                                | _ => false
                                end) acts).

(** The longest path of [handleCmdMessage]: acquire, two log lines and the
    print, the round trip, the clock, a log line, the publish with its error
    line, the last log line, the release. *)
Definition handlerSteps : nat := 12.

(** Command lines made of defined flags: each setting names one of the six
    flags, with one dash or two, and gives its value as the next argument or
    after an equals sign. *)
Inductive FlagName : Type := F_z21_name | F_n | F_z21_addr | F_zc | F_nats_url | F_nc.

Definition flagText (f : FlagName) : string :=
  match f with
  | F_z21_name => "z21_name"
  | F_n => "n"
  | F_z21_addr => "z21_addr"
  | F_zc => "zc"
  | F_nats_url => "nats_url"
  | F_nc => "nc"
  end.

Definition flagVar (f : FlagName) : ConfigVar :=
  match f with
  | F_z21_name | F_n => z21Name
  | F_z21_addr | F_zc => z21Addr
  | F_nats_url | F_nc => natsURL
  end.

Record Setting : Type := {
  sflag : FlagName;
  twoDashes : bool;
  withEquals : bool;
  svalue : string;
}.

Definition renderSetting (s : Setting) : list string :=
  let flag := (if twoDashes s then "--" else "-") +:+ flagText (sflag s) in
  if withEquals s then [flag +:+ "=" +:+ svalue s] else [flag; svalue s].

Definition render (ss : list Setting) : list string :=
  concat (renderSetting <$> ss).

#[export] Instance ConfigVar_eq_dec : EqDecision ConfigVar.
Proof. solve_decision. Defined.

(** The value of the last setting of a flag bound to [x], [d] if none. *)
Fixpoint lastFor (x : ConfigVar) (ss : list Setting) (d : string) : string :=
  match ss with
  | [] => d
  | s :: rest => lastFor x rest (if bool_decide (flagVar (sflag s) = x) then svalue s else d)
  end.

(** What may follow the flags: nothing, ["--"], or an argument that is not
    a flag. *)
Definition endsFlags (rest : list string) : Prop :=
  match rest with
  | [] => True
  | a :: _ => classify a = NonFlag ∨ classify a = Terminator
  end.

(** Library defaults as the usage text states them. *)
Definition sampleDefaults : Defaults := {|
  z21_DefaultName := "main";
  z21_DefaultURL := "127.0.0.1:21105";
  nats_DefaultURL := "nats://127.0.0.1:4222";
|}.

(** * Properties *)

(** ** Sanity checks of the library models *)

Example Format_RFC3339_epoch :
  Format_RFC3339 {| unixSec := 0; zoneOffset := 0 |} = "1970-01-01T00:00:00Z".
Proof. reflexivity. Qed.

Example Format_RFC3339_2023 :
  Format_RFC3339 {| unixSec := 1700000000; zoneOffset := 3600 |}
  = "2023-11-14T23:13:20+01:00".
Proof. reflexivity. Qed.

Example checkReachability_12345 :
  result_of (run checkReachability (sampleOracle (Some (SerialNumber 12345), None)) offline)
  = {| StatusMsg.Reachable := true; StatusMsg.Serial := "12345";
       StatusMsg.TS := "2023-11-14T22:13:20Z" |}.
Proof. reflexivity. Qed.

(** ** Running programs *)

Lemma run_bind {A B : Type} (p : Prog A) (f : A -> Prog B) (o : Oracle) (st : GwState) :
  run (bind p f) o st =
  let '(a, st1, tr1) := run p o st in
  let '(b, st2, tr2) := run (f a) o st1 in
  (b, st2, (tr1 ++ tr2)%list).
Proof.
  revert st. induction p as [a | e k IH]; intros st; simpl.
  - destruct (run (f a) o st) as [[b st2] tr2]. reflexivity.
  - destruct (answer o st e) as [r st1]. rewrite IH.
    destruct (run (k r) o st1) as [[a st2] tr1].
    destruct (run (f a) o st2) as [[b st3] tr2]. reflexivity.
Qed.

Lemma run_checkReachability (o : Oracle) (st : GwState) :
  run checkReachability o st =
  ({| StatusMsg.Reachable := reachableOf (probe o);
      StatusMsg.Serial := match probe o with
                          | (Some (SerialNumber sn), None) => fmt_d sn
                          | _ => ""
                          end;
      StatusMsg.TS := Format_RFC3339 (UTC (o_now o)) |},
   st,
   [EvLog (logger DebugLevel) "sending hearbeat";
    EvSendRcv (WithTimeout GatewayCtx RequestTimeout) (SerialNumber 0);
    EvNow]).
Proof.
  unfold checkReachability, probe. simpl.
  destruct (o_device o _ _) as [[[sn | f | b | k b] | ] [e | ]]; reflexivity.
Qed.

Lemma json_Marshal_StatusMsg `{lib : Z21Library} (s : StatusMsg.t) :
  json_Marshal (StatusMsg.fields s)
  = Ok_ (JObject [("reachable", JBool (StatusMsg.Reachable s));
                  ("serial:omitempty", JString (StatusMsg.Serial s));
                  ("ts", JString (StatusMsg.TS s))]).
Proof. reflexivity. Qed.

(** ** Reachability monitor *)

(** C5: [checkReachability] reports [reachable = true] with the serial
    number of the response, printed in decimal, exactly when the round trip
    returns no error and the response is a [*z21.SerialNumber]; for every
    other answer (an error, a nil response, a response of another type) it
    reports [reachable = false] and the empty serial.  The probe is the one
    device call the function makes. *)
Theorem checkReachability_reachable_exactly_on_serial (o : Oracle) (st : GwState) :
  let r := run checkReachability o st in
  deviceCalls (trace_of r) = [(WithTimeout GatewayCtx RequestTimeout, SerialNumber 0)]
  ∧ match o_device o (WithTimeout GatewayCtx RequestTimeout) (SerialNumber 0) with
    | (Some (SerialNumber sn), None) =>
        StatusMsg.Reachable (result_of r) = true
        ∧ StatusMsg.Serial (result_of r) = fmt_d sn
    | _ =>
        StatusMsg.Reachable (result_of r) = false
        ∧ StatusMsg.Serial (result_of r) = ""
    end.
Proof.
  intros r. subst r. rewrite run_checkReachability. unfold probe. split; [reflexivity |].
  destruct (o_device o _ _) as [[[sn | f | b | k b] | ] [e | ]]; split; reflexivity.
Qed.

Lemma run_doHeartbeatCheck_state `{lib : Z21Library} (g : Gateway) (o : Oracle) (st : GwState) :
  let reachable := reachableOf (probe o) in
  state_of (run (doHeartbeatCheck g) o st)
  = if negb (eqb reachable (isOnline st))
    then {| isOnline := reachable;
            onlineStatus := match onlineStatus st with
                            | None => Some reachable
                            | Some v => Some v
                            end |}
    else st.
Proof.
  unfold doHeartbeatCheck, mbind, Prog_bind. rewrite run_bind, run_checkReachability.
  destruct st as [was [buf | ]]; simpl;
    destruct (reachableOf (probe o)), was; simpl;
    destruct (o_bus o _ _); reflexivity.
Qed.

Lemma run_doHeartbeatCheck_trace `{lib : Z21Library} (g : Gateway) (o : Oracle) (st : GwState) :
  let status := result_of (run checkReachability o st) in
  let tr := trace_of (run (doHeartbeatCheck g) o st) in
  publishes tr
  = [("z21." +:+ name g +:+ ".status",
      JObject [("reachable", JBool (StatusMsg.Reachable status));
               ("serial:omitempty", JString (StatusMsg.Serial status));
               ("ts", JString (StatusMsg.TS status))])]
  ∧ offers tr
    = (if negb (eqb (StatusMsg.Reachable status) (isOnline st))
       then [StatusMsg.Reachable status] else [])
  ∧ deviceCalls tr = [(WithTimeout GatewayCtx RequestTimeout, SerialNumber 0)].
Proof.
  unfold doHeartbeatCheck, mbind, Prog_bind. rewrite run_bind, run_checkReachability.
  destruct st as [was [buf | ]]; simpl;
    destruct (reachableOf (probe o)), was; simpl;
    destruct (o_bus o _ _); repeat split; reflexivity.
Qed.

Lemma run_subscribeBroadcast `{lib : Z21Library} (o : Oracle) (st : GwState) :
  run subscribeBroadcast o st
  = (tt, st,
     [EvSendRcv Background
        (BroadcastFlags (Z.lor (Mask32 SYSTEM_UPDATES) (Mask32 CAN_DETECTOR_UPDATES)))]).
Proof.
  unfold subscribeBroadcast. simpl.
  destruct (o_device o _ _) as [m [e | ]]; reflexivity.
Qed.

Lemma run_monitorOnlineStatus_recv `{lib : Z21Library} (v : bool) (o : Oracle) (st : GwState) :
  run (monitorOnlineStatus_recv v) o st
  = (tt, st,
     if v then
       [EvLog (logger InfoLevel) "Z21 is ONLINE — sending broadcast subscription";
        EvSendRcv Background
          (BroadcastFlags (Z.lor (Mask32 SYSTEM_UPDATES) (Mask32 CAN_DETECTOR_UPDATES)))]
     else [EvLog (logger WarnLevel) "Z21 is OFFLINE"]).
Proof.
  destruct v; [| reflexivity].
  unfold monitorOnlineStatus_recv, subscribeBroadcast. simpl.
  destruct (o_device o _ _) as [m [e | ]]; reflexivity.
Qed.

Lemma publishes_app (tr1 tr2 : list Event) :
  publishes (tr1 ++ tr2) = (publishes tr1 ++ publishes tr2)%list.
Proof. unfold publishes. apply omap_app. Qed.

Lemma loops_publishes `{lib : Z21Library} (g : Gateway) (acts : list LoopAction) (st : GwState) :
  length (publishes (loops g acts st).2) = ticks acts.
Proof.
  revert st. induction acts as [| a acts IH]; intros st; [reflexivity |].
  simpl. destruct (loopStep g a st) as [st1 tr1] eqn:Hstep.
  specialize (IH st1). destruct (loops g acts st1) as [st2 tr2]. simpl in *.
  rewrite publishes_app, length_app, IH. unfold ticks. simpl.
  destruct a as [o | o]; simpl in Hstep.
  - inversion Hstep; subst.
    destruct (run_doHeartbeatCheck_trace g o st) as [Hpub _].
    simpl in Hpub. rewrite Hpub. reflexivity.
  - destruct (onlineStatus st) as [v | ].
    + rewrite run_monitorOnlineStatus_recv in Hstep. inversion Hstep; subst.
      destruct v; reflexivity.
    + inversion Hstep; subst. reflexivity.
Qed.

(** C4: every probe tick publishes exactly one status message on
    [z21.<name>.status], the serialization of the status just probed,
    whether or not the state changed.  The tick offers a value to the
    transition channel exactly when the probed reachable flag differs from
    the stored [isOnline]; the offer never blocks: the value is buffered
    when the single slot is free and dropped when a prior transition is
    still unconsumed.  Over any interleaving of ticks and monitor receives,
    the number of status messages equals the number of ticks. *)
Theorem doHeartbeatCheck_one_status_per_tick_offer_on_change
    `{lib : Z21Library} (g : Gateway) :
  (∀ (o : Oracle) (st : GwState),
     let status := result_of (run checkReachability o st) in
     let r := run (doHeartbeatCheck g) o st in
     let changed := negb (eqb (StatusMsg.Reachable status) (isOnline st)) in
     (∃ data, json_Marshal (StatusMsg.fields status) = Ok_ data
              ∧ publishes (trace_of r) = [("z21." +:+ name g +:+ ".status", data)])
     ∧ offers (trace_of r) = (if changed then [StatusMsg.Reachable status] else [])
     ∧ isOnline (state_of r) = StatusMsg.Reachable status
     ∧ onlineStatus (state_of r)
       = (if changed
          then match onlineStatus st with
               | None => Some (StatusMsg.Reachable status)
               | Some prior => Some prior
               end
          else onlineStatus st))
  ∧ (∀ (acts : list LoopAction) (st : GwState),
       length (publishes (loops g acts st).2) = ticks acts).
Proof.
  split; [| apply loops_publishes].
  intros o st status r changed.
  destruct (run_doHeartbeatCheck_trace g o st) as (Hpub & Hoff & _).
  pose proof (run_doHeartbeatCheck_state g o st) as Hst.
  fold status in Hpub, Hoff. fold r in Hpub, Hoff, Hst. simpl in Hst.
  assert (Hreach : StatusMsg.Reachable status = reachableOf (probe o)).
  { unfold status. rewrite run_checkReachability. reflexivity. }
  rewrite <- Hreach in Hst. fold changed in Hoff, Hst.
  split; [| split; [| split]].
  - eexists. split; [apply json_Marshal_StatusMsg | exact Hpub].
  - exact Hoff.
  - rewrite Hst. unfold changed.
    destruct (StatusMsg.Reachable status), (isOnline st) eqn:Hon; simpl; try reflexivity;
      destruct st; simpl in *; congruence.
  - rewrite Hst. destruct changed; reflexivity.
Qed.

(** ** Command dispatcher: one handler run *)

Lemma deviceCalls_app (tr1 tr2 : list Event) :
  deviceCalls (tr1 ++ tr2) = (deviceCalls tr1 ++ deviceCalls tr2)%list.
Proof. unfold deviceCalls. apply omap_app. Qed.

Lemma run_handleError (err : error) (o : Oracle) (st : GwState) :
  run (handleError err) o st
  = ({| CmdReply.Type_ := ""; CmdReply.Ok := false; CmdReply.Data := None;
        CmdReply.Error := "invalid message: " +:+ err;
        CmdReply.TS := Format_RFC3339 (o_now o) |},
     st,
     [EvLog (Err err (logger ErrorLevel)) "NATS msg"; EvNow]).
Proof. reflexivity. Qed.

Lemma run_handleRequest (req : Serializable) (o : Oracle) (st : GwState) :
  run (handleRequest req) o st
  = let '(resp, err) := o_device o (WithTimeout GatewayCtx RequestTimeout) req in
    ({| CmdReply.Type_ := "";
        CmdReply.Ok := match err with Some _ => false | None => true end;
        CmdReply.Data := match err with Some _ => None | None => resp end;
        CmdReply.Error := match err with Some e => e | None => "" end;
        CmdReply.TS := Format_RFC3339 (o_now o) |},
     st,
     [EvLog (logger DebugLevel) "Z21 tx";
      EvSendRcv (WithTimeout GatewayCtx RequestTimeout) req;
      EvNow;
      EvLog (match err with
             | Some e => Err e (logger ErrorLevel)
             | None => logger DebugLevel
             end) "Z21 rx"]).
Proof.
  unfold handleRequest. simpl.
  destruct (o_device o _ req) as [resp [e | ]]; reflexivity.
Qed.

Lemma run_doCmdRequest `{lib : Z21Library} (g : Gateway) (msg : NatsMsg.t)
    (o : Oracle) (st : GwState) :
  run (doCmdRequest g msg) o st
  = let hello := EvLog (Str "subject" (NatsMsg.Subject msg) (logger DebugLevel)) "NATS msg" in
    if String.eqb (NatsMsg.Subject msg) (discoverSubject g) then
      let '(reply, st', tr) :=
        match unmarshalCanDetector (NatsMsg.Data msg) with
        | Err_ err => run (handleError err) o st
        | Ok_ body => run (handleRequest (CanDetector body)) o st
        end in
      (reply, st', hello :: EvStdout (NatsMsg.Data msg +:+ newline) :: tr)
    else
      (CmdReply.zero, st,
       [hello;
        EvLog (Str "subject" (NatsMsg.Subject msg) (logger WarnLevel)) "unknown subject"]).
Proof.
  unfold doCmdRequest. simpl.
  destruct (String.eqb _ _); [| reflexivity]. simpl.
  destruct (unmarshalCanDetector _) as [body | err].
  - rewrite run_handleRequest.
    destruct (o_device o _ (CanDetector body)) as [resp [e | ]]; reflexivity.
  - reflexivity.
Qed.

Lemma run_doCmdRequest_quiet `{lib : Z21Library} (g : Gateway) (msg : NatsMsg.t)
    (o : Oracle) (st : GwState) :
  state_of (run (doCmdRequest g msg) o st) = st
  ∧ publishes (trace_of (run (doCmdRequest g msg) o st)) = [].
Proof.
  rewrite run_doCmdRequest. cbv zeta.
  destruct (String.eqb _ _); [| split; reflexivity].
  destruct (unmarshalCanDetector _) as [body | err].
  - rewrite run_handleRequest. destruct (o_device o _ _) as [resp [e | ]]; split; reflexivity.
  - split; reflexivity.
Qed.

(** What follows [doCmdRequest] in an admitted handler: the publish of the
    serialized reply, or the error log when the reply does not serialize. *)
Lemma run_handleCmdMessage `{lib : Z21Library} (g : Gateway) (msg : NatsMsg.t)
    (o : Oracle) (st : GwState) :
  run (handleCmdMessage g msg) o st
  = if o_admit o then
      let '(reply, st1, tr1) := run (doCmdRequest g msg) o st in
      (tt, st1,
       (EvSemAcquire :: tr1
        ++ match json_Marshal (CmdReply.fields reply) with
           | Err_ err => [EvLog (Err err (logger ErrorLevel)) "NATS msg"]
           | Ok_ data =>
               EvPublish (replySubject g msg) data
               :: match o_bus o (replySubject g msg) data with
                  | Some err => [EvLog (Err err (logger ErrorLevel)) "NATS msg"]
                  | None => []
                  end
               ++ [EvLog (Str "subject" (replySubject g msg) (logger InfoLevel)) "NATS pub"]
           end
        ++ [EvSemRelease])%list)
    else (tt, st, [EvSemAcquire]).
Proof.
  unfold handleCmdMessage, defer, mbind, Prog_bind, mret, Prog_ret, trigger.
  cbn [bind run answer].
  destruct (o_admit o); [| reflexivity].
  rewrite !run_bind.
  destruct (run (doCmdRequest g msg) o st) as [[reply st1] tr1].
  destruct (json_Marshal (CmdReply.fields reply)) as [data | err]; simpl.
  - destruct (o_bus o (replySubject g msg) data) as [perr | ]; simpl;
      rewrite <- ?app_assoc; reflexivity.
  - rewrite <- ?app_assoc. reflexivity.
Qed.

Lemma append_nonempty_r (s1 s2 : string) : s2 ≠ "" → s1 +:+ s2 ≠ "".
Proof. destruct s1; simpl; [auto | discriminate]. Qed.

Lemma Format_RFC3339_nonempty (t : Time) : Format_RFC3339 t ≠ "".
Proof.
  unfold Format_RFC3339. destruct (civil_from_days _) as [[y m] d].
  apply append_nonempty_r. cbn [String.append]. discriminate.
Qed.

(** C3: a message on the discover subject whose payload does not decode is
    answered with [ok = false] and the error text
    ["invalid message: " ++ <decoding error>]; neither [doCmdRequest] nor
    the handler around it makes a device call for it. *)
Theorem doCmdRequest_malformed_payload_short_circuits
    `{lib : Z21Library} (g : Gateway) (msg : NatsMsg.t) (err : error)
    (o : Oracle) (st : GwState) :
  NatsMsg.Subject msg = discoverSubject g →
  unmarshalCanDetector (NatsMsg.Data msg) = Err_ err →
  let r := run (doCmdRequest g msg) o st in
  CmdReply.Ok (result_of r) = false
  ∧ CmdReply.Error (result_of r) = "invalid message: " +:+ err
  ∧ deviceCalls (trace_of r) = []
  ∧ deviceCalls (trace_of (run (handleCmdMessage g msg) o st)) = [].
Proof.
  intros Hsubj Hdec r.
  assert (Hr : r = ({| CmdReply.Type_ := ""; CmdReply.Ok := false; CmdReply.Data := None;
                       CmdReply.Error := "invalid message: " +:+ err;
                       CmdReply.TS := Format_RFC3339 (o_now o) |}, st,
                    [EvLog (Str "subject" (NatsMsg.Subject msg) (logger DebugLevel)) "NATS msg";
                     EvStdout (NatsMsg.Data msg +:+ newline);
                     EvLog (Err err (logger ErrorLevel)) "NATS msg"; EvNow])).
  { unfold r. rewrite run_doCmdRequest. cbv zeta.
    rewrite Hsubj, String.eqb_refl, Hdec, run_handleError. reflexivity. }
  repeat split; try (rewrite Hr; reflexivity).
  rewrite run_handleCmdMessage. destruct (o_admit o); [| reflexivity].
  fold r. rewrite Hr. simpl.
  destruct (o_bus o _ _); reflexivity.
Qed.

Lemma doCmdRequest_malformed_payload_witness :
  let msg := {| NatsMsg.Subject := "z21.main.cmd.can.discover";
                NatsMsg.Reply := "_INBOX.1"; NatsMsg.Data := "not json" |} in
  let o := sampleOracle (Some (CanDetector "{}"), None) in
  (NatsMsg.Subject msg = discoverSubject main
   ∧ unmarshalCanDetector (Z21Library := sampleLibrary) (NatsMsg.Data msg)
     = Err_ "invalid character")
  ∧ CmdReply.Ok (result_of (run (doCmdRequest (lib := sampleLibrary) main msg) o offline))
    = false
  ∧ CmdReply.Error (result_of (run (doCmdRequest (lib := sampleLibrary) main msg) o offline))
    = "invalid message: invalid character"
  ∧ deviceCalls (trace_of (run (doCmdRequest (lib := sampleLibrary) main msg) o offline)) = []
  ∧ deviceCalls (trace_of (run (handleCmdMessage (lib := sampleLibrary) main msg) o offline))
    = [].
Proof.
  intros msg o. split; [split; reflexivity |].
  apply (doCmdRequest_malformed_payload_short_circuits
           (lib := sampleLibrary) main msg "invalid character" o offline);
    reflexivity.
Defined.




(** C7: the reply to a decoded request does not carry the request's type.
    [handleRequest] builds the reply from the timestamp alone and then sets
    only the success flag with the payload or the error text; the field
    [CmdReply.Type], declared with the tag [json:"type"], is never assigned.
    So for every payload that decodes, whatever type the request names, the
    reply's type is the empty string; next to it are the timestamp of the
    clock in RFC 3339 and either [ok = true] with the device's response as
    payload and no error string, or [ok = false] with the transport error's
    text and no payload. *)
Theorem doCmdRequest_decoded_reply_shape
    `{lib : Z21Library} (g : Gateway) (msg : NatsMsg.t) (body : string)
    (o : Oracle) (st : GwState) :
  NatsMsg.Subject msg = discoverSubject g →
  unmarshalCanDetector (NatsMsg.Data msg) = Ok_ body →
  let reply := result_of (run (doCmdRequest g msg) o st) in
  CmdReply.Type_ reply = ""
  ∧ CmdReply.TS reply = Format_RFC3339 (o_now o)
  ∧ match o_device o (WithTimeout GatewayCtx RequestTimeout) (CanDetector body) with
    | (resp, None) =>
        CmdReply.Ok reply = true ∧ CmdReply.Data reply = resp ∧ CmdReply.Error reply = ""
    | (_, Some e) =>
        CmdReply.Ok reply = false ∧ CmdReply.Data reply = None ∧ CmdReply.Error reply = e
    end.
Proof.
  intros Hsubj Hdec reply. subst reply.
  rewrite run_doCmdRequest. cbv zeta.
  rewrite Hsubj, String.eqb_refl, Hdec, run_handleRequest.
  destruct (o_device o _ _) as [resp [e | ]]; repeat split; reflexivity.
Qed.

Lemma doCmdRequest_decoded_reply_witness :
  let msg := {| NatsMsg.Subject := "z21.main.cmd.can.discover";
                NatsMsg.Reply := "_INBOX.1"; NatsMsg.Data := "{}" |} in
  let o := sampleOracle (None, Some "context deadline exceeded") in
  let reply := result_of (run (doCmdRequest (lib := sampleLibrary) main msg) o offline) in
  (NatsMsg.Subject msg = discoverSubject main
   ∧ unmarshalCanDetector (Z21Library := sampleLibrary) (NatsMsg.Data msg) = Ok_ "{}")
  ∧ CmdReply.Type_ reply = ""
  ∧ CmdReply.TS reply = "2023-11-14T22:13:20Z"
  ∧ CmdReply.Ok reply = false ∧ CmdReply.Data reply = None
  ∧ CmdReply.Error reply = "context deadline exceeded".
Proof.
  intros msg o reply. split; [split; reflexivity |].
  exact (doCmdRequest_decoded_reply_shape
           (lib := sampleLibrary) main msg "{}" o offline eq_refl eq_refl).
Defined.

(** C10: a message whose subject is not the discover subject gets the
    zero-value reply: [ok = false], empty error, empty type, no payload and
    an empty timestamp, with no device call; the admitted handler publishes
    its serialization [{type: "", ok: false, ts: ""}] once, to the reply
    target (a handler that observes shutdown instead of a slot publishes
    nothing, as for every message).  The two other reply paths,
    [handleError] and [handleRequest], always set a non-empty timestamp. *)
Theorem doCmdRequest_unknown_subject_zero_reply
    `{lib : Z21Library} (g : Gateway) (msg : NatsMsg.t) (o : Oracle) (st : GwState) :
  NatsMsg.Subject msg ≠ discoverSubject g →
  (result_of (run (doCmdRequest g msg) o st) = CmdReply.zero
   ∧ CmdReply.Ok CmdReply.zero = false ∧ CmdReply.Error CmdReply.zero = ""
   ∧ CmdReply.Type_ CmdReply.zero = "" ∧ CmdReply.TS CmdReply.zero = ""
   ∧ deviceCalls (trace_of (run (doCmdRequest g msg) o st)) = [])
  ∧ publishes (trace_of (run (handleCmdMessage g msg) o st))
    = (if o_admit o
       then [(replySubject g msg,
              JObject [("type", JString ""); ("ok", JBool false); ("ts", JString "")])]
       else [])
  ∧ (∀ err, CmdReply.TS (result_of (run (handleError err) o st)) ≠ "")
  ∧ (∀ req, CmdReply.TS (result_of (run (handleRequest req) o st)) ≠ "").
Proof.
  intros Hsubj. apply String.eqb_neq in Hsubj.
  assert (Hr : run (doCmdRequest g msg) o st
               = (CmdReply.zero, st,
                  [EvLog (Str "subject" (NatsMsg.Subject msg) (logger DebugLevel)) "NATS msg";
                   EvLog (Str "subject" (NatsMsg.Subject msg) (logger WarnLevel))
                     "unknown subject"])).
  { rewrite run_doCmdRequest. cbv zeta. rewrite Hsubj. reflexivity. }
  split; [| split; [| split]].
  - rewrite Hr. repeat split; reflexivity.
  - rewrite run_handleCmdMessage, Hr.
    destruct (o_admit o); [| reflexivity].
    simpl. destruct (o_bus o _ _); reflexivity.
  - intros err. rewrite run_handleError. apply Format_RFC3339_nonempty.
  - intros req. rewrite run_handleRequest.
    destruct (o_device o _ req) as [resp [e | ]]; apply Format_RFC3339_nonempty.
Qed.

Lemma doCmdRequest_unknown_subject_witness :
  let msg := {| NatsMsg.Subject := "z21.depot.cmd.can.discover";
                NatsMsg.Reply := "_INBOX.9"; NatsMsg.Data := "{}" |} in
  let o := sampleOracle (Some (CanDetector "{7}"), None) in
  NatsMsg.Subject msg ≠ discoverSubject main
  ∧ result_of (run (doCmdRequest (lib := sampleLibrary) main msg) o offline) = CmdReply.zero
  ∧ publishes (trace_of (run (handleCmdMessage (lib := sampleLibrary) main msg) o offline))
    = [("_INBOX.9",
        JObject [("type", JString ""); ("ok", JBool false); ("ts", JString "")])].
Proof.
  intros msg o.
  assert (Hne : NatsMsg.Subject msg ≠ discoverSubject main) by (vm_compute; discriminate).
  pose proof (doCmdRequest_unknown_subject_zero_reply
                (lib := sampleLibrary) main msg o offline Hne) as (Hzero & Hpub & _).
  split; [exact Hne |]. split; [exact (proj1 Hzero) | exact Hpub].
Defined.

(** ** Timeouts, status shape and subscription arming *)

(** C6: the contexts of the three device round trips.  The reachability
    probe and the forwarded command run under
    [context.WithTimeout(g.ctx, RequestTimeout)], 500 ms and cancellable;
    the arming request of [subscribeBroadcast] runs under
    [context.Background()], with no timeout and out of reach of the
    gateway's cancellation. *)
Theorem round_trip_contexts `{lib : Z21Library} (o : Oracle) (st : GwState) :
  (deviceCalls (trace_of (run checkReachability o st))
   = [(WithTimeout GatewayCtx RequestTimeout, SerialNumber 0)]
   ∧ ∀ req, deviceCalls (trace_of (run (handleRequest req) o st))
            = [(WithTimeout GatewayCtx RequestTimeout, req)])
  ∧ timeoutOf (WithTimeout GatewayCtx RequestTimeout) = Some 500000000%Z
  ∧ (∃ flags, deviceCalls (trace_of (run subscribeBroadcast o st))
              = [(Background, BroadcastFlags flags)])
  ∧ timeoutOf Background = None
  ∧ cancellable Background = false.
Proof.
  split; [split |].
  - rewrite run_checkReachability. reflexivity.
  - intros req. rewrite run_handleRequest.
    destruct (o_device o _ req) as [resp [e | ]]; reflexivity.
  - split; [reflexivity |]. split; [| split; reflexivity].
    eexists. rewrite run_subscribeBroadcast. reflexivity.
Qed.

(** C8: the status message a tick publishes is a JSON object with the keys
    ["reachable"], ["serial:omitempty"] and ["ts"], in that order, for every
    probe outcome: the struct tag [json:"serial:omitempty"] has no comma, so
    the whole of it is the key, and the object has no member ["serial"]. *)
Theorem status_message_keys `{lib : Z21Library} (g : Gateway) (o : Oracle) (st : GwState) :
  ∃ data,
    publishes (trace_of (run (doHeartbeatCheck g) o st))
    = [("z21." +:+ name g +:+ ".status", data)]
    ∧ keys data = ["reachable"; "serial:omitempty"; "ts"]
    ∧ member "serial" data = None
    ∧ member "serial:omitempty" data
      = Some (JString (StatusMsg.Serial (result_of (run checkReachability o st)))).
Proof.
  destruct (run_doHeartbeatCheck_trace g o st) as (Hpub & _).
  eexists. split; [exact Hpub |]. repeat split; reflexivity.
Qed.

Example status_message_12345 :
  publishes (trace_of (run (doHeartbeatCheck (lib := sampleLibrary) main)
                         (sampleOracle (Some (SerialNumber 12345), None)) offline))
  = [("z21.main.status",
      JObject [("reachable", JBool true); ("serial:omitempty", JString "12345");
               ("ts", JString "2023-11-14T22:13:20Z")])].
Proof. reflexivity. Qed.

(** C9: what the monitor does with a received transition.  On [true] it
    writes one info line and makes exactly one device request, a
    [BroadcastFlags] whose flags are
    [Mask32(SYSTEM_UPDATES) | Mask32(CAN_DETECTOR_UPDATES)]; whatever the
    device answers, also an error, nothing follows: no retry, no further
    event, and no log line either, since the error event is never sent.  On
    [false] it writes one warning line and makes no device request. *)
Theorem monitorOnlineStatus_recv_effects
    `{lib : Z21Library} (o : Oracle) (st : GwState) :
  run (monitorOnlineStatus_recv true) o st
  = (tt, st,
     [EvLog (logger InfoLevel) "Z21 is ONLINE — sending broadcast subscription";
      EvSendRcv Background
        (BroadcastFlags (Z.lor (Mask32 SYSTEM_UPDATES) (Mask32 CAN_DETECTOR_UPDATES)))])
  ∧ logLines ErrorLevel (trace_of (run (monitorOnlineStatus_recv true) o st)) = []
  ∧ run (monitorOnlineStatus_recv false) o st
    = (tt, st, [EvLog (logger WarnLevel) "Z21 is OFFLINE"])
  ∧ deviceCalls (trace_of (run (monitorOnlineStatus_recv false) o st)) = [].
Proof.
  rewrite !run_monitorOnlineStatus_recv. repeat split; reflexivity.
Qed.

Example subscribeBroadcast_error_not_logged :
  trace_of (run (monitorOnlineStatus_recv (lib := sampleLibrary) true)
              (sampleOracle (None, Some "write udp: connection refused")) offline)
  = [EvLog (logger InfoLevel) "Z21 is ONLINE — sending broadcast subscription";
     EvSendRcv Background (BroadcastFlags 0x00080100)].
Proof. reflexivity. Qed.

(** The scenario of a good probe followed by a failed one.  When the monitor
    has taken the first transition, the second is buffered; when it has not,
    the second is dropped and the buffer still holds [true]. *)
Example probe_ok_then_failed :
  let ok := Tick (sampleOracle (Some (SerialNumber 12345), None)) in
  let failed := Tick (sampleOracle (None, Some "context deadline exceeded")) in
  let taken := Receive (sampleOracle (None, None)) in
  let consumed := loops (lib := sampleLibrary) main [ok; taken; failed] offline in
  let pending := loops (lib := sampleLibrary) main [ok; failed] offline in
  offers consumed.2 = [true; false]
  ∧ consumed.1 = {| isOnline := false; onlineStatus := Some false |}
  ∧ offers pending.2 = [true; false]
  ∧ pending.1 = {| isOnline := false; onlineStatus := Some true |}
  ∧ publishes pending.2
    = [("z21.main.status",
        JObject [("reachable", JBool true); ("serial:omitempty", JString "12345");
                 ("ts", JString "2023-11-14T22:13:20Z")]);
       ("z21.main.status",
        JObject [("reachable", JBool false); ("serial:omitempty", JString "");
                 ("ts", JString "2023-11-14T22:13:20Z")])].
Proof. vm_compute. repeat split; reflexivity. Qed.

(** ** Command dispatcher: the slot discipline *)

Lemma wp_mono {A : Type} (p : Prog A) (Q Q' : A -> bool -> Prop) (h : bool) :
  (∀ a h', Q a h' → Q' a h') → wp p Q h → wp p Q' h.
Proof.
  intros HQ. revert h. induction p as [a | e k IH]; intros h; simpl; [apply HQ |].
  destruct e; simpl; try (intros Hk r; apply IH, Hk).
  - intros [Hh Hk]. split; [exact Hh |]. intros r. apply IH, Hk.
  - intros (Hh & Ht & Hf). split; [exact Hh |]. split; apply IH; assumption.
  - intros [Hh Hk]. split; [exact Hh |]. apply IH, Hk.
Qed.

Lemma wp_bind {A B : Type} (p : Prog A) (f : A -> Prog B) (Q : B -> bool -> Prop) (h : bool) :
  wp p (fun a h' => wp (f a) Q h') h → wp (bind p f) Q h.
Proof.
  revert h. induction p as [a | e k IH]; intros h; simpl; [auto |].
  destruct e; simpl; try (intros Hk r; apply IH, Hk).
  - intros [Hh Hk]. split; [exact Hh |]. intros r. apply IH, Hk.
  - intros (Hh & Ht & Hf). split; [exact Hh |]. split; apply IH; assumption.
  - intros [Hh Hk]. split; [exact Hh |]. apply IH, Hk.
Qed.

(** [doCmdRequest] leaves the semaphore alone and contacts the device
    only under a held slot. *)
Lemma doCmdRequest_keeps_slot `{lib : Z21Library} (g : Gateway) (msg : NatsMsg.t) :
  wp (doCmdRequest g msg) (fun _ h' => h' = true) true.
Proof.
  unfold doCmdRequest. simpl. intros _.
  destruct (String.eqb _ _); simpl.
  - intros _. destruct (unmarshalCanDetector _) as [body | err]; simpl.
    + intros _. split; [reflexivity |]. intros [resp [e | ]]; simpl; intros; reflexivity.
    + intros; reflexivity.
  - intros; reflexivity.
Qed.

(** Every return path of the handler gives the slot back: after the
    device error, after a reply that does not serialize, after a failed
    publish, and for the handler that never got a slot. *)
Lemma handleCmdMessage_slotSafe `{lib : Z21Library} (g : Gateway) (msg : NatsMsg.t) :
  slotSafe (handleCmdMessage g msg) false.
Proof.
  unfold slotSafe, handleCmdMessage, defer, mbind, Prog_bind, mret, Prog_ret, trigger.
  cbn [bind wp]. split; [reflexivity |]. split; [| reflexivity].
  apply wp_bind, wp_bind.
  eapply wp_mono; [| apply doCmdRequest_keeps_slot].
  intros reply h' ->.
  destruct (json_Marshal (CmdReply.fields reply)) as [data | err]; simpl.
  - intros [perr | ]; simpl; intros; split; reflexivity.
  - intros _. split; reflexivity.
Qed.

(** ** Command dispatcher: interleaved workers *)

Lemma count_app (p : Worker -> bool) (ws1 ws2 : list Worker) :
  count p (ws1 ++ ws2) = (count p ws1 + count p ws2)%nat.
Proof. unfold count. rewrite List.filter_app, length_app. reflexivity. Qed.

Lemma count_insert (p : Worker -> bool) (ws : list Worker) (i : nat) (w w' : Worker) :
  ws !! i = Some w →
  (count p (<[i := w']> ws) + b2n (p w) = count p ws + b2n (p w'))%nat.
Proof.
  unfold count. revert i. induction ws as [| x ws IH]; intros i Hi; [discriminate |].
  destruct i as [| i]; simpl in Hi |- *.
  - inversion Hi; subst. destruct (p w), (p w'); simpl; lia.
  - specialize (IH i Hi). destruct (p x); simpl; lia.
Qed.

Lemma stepWorker_inv (o : Oracle) (n : nat) (done : bool) (st st' : GwState)
    (w w' : Worker) (n' : nat) :
  stepWorker o n done st w = Some (n', st', w') →
  workerOk w →
  workerOk w'
  ∧ (n' + b2n (held w) = n + b2n (held w'))%nat
  ∧ (n ≤ MaxConcurrentCommands → n' ≤ MaxConcurrentCommands)%nat.
Proof.
  unfold stepWorker, workerOk. destruct w as [h c]. simpl.
  destruct c as [[u | e k] | ctx req k].
  - discriminate.
  - destruct e; simpl; intros Hstep Hok;
      try (inversion Hstep; subst; simpl; split; [apply Hok | split; lia]).
    + destruct Hok as (-> & Ht & Hf). destruct (o_admit o).
      * destruct (decide (n < MaxConcurrentCommands)) as [Hlt | ]; [| discriminate].
        inversion Hstep; subst; simpl. split; [exact Ht | split; lia].
      * destruct done; [| discriminate].
        inversion Hstep; subst; simpl. split; [exact Hf | split; lia].
    + destruct Hok as [-> Hk]. destruct n as [| m]; [discriminate |].
      inversion Hstep; subst; simpl. split; [exact Hk | split; lia].
  - intros Hstep [Hh Hk]. inversion Hstep; subst; simpl.
    split; [apply Hk | split; lia].
Qed.

Lemma step_inv `{lib : Z21Library} (g : Gateway) (a : Action) (s s' : System) :
  step g a s = Some s' → Inv s → Inv s'.
Proof.
  unfold Inv. destruct a as [msg | | i o]; simpl.
  - intros Hs (Hsem & Hcap & Hok). inversion Hs; subst; simpl.
    split; [| split; [exact Hcap |]].
    + rewrite count_app, Hsem. unfold count. simpl. lia.
    + apply Forall_app. split; [exact Hok |].
      apply Forall_singleton. apply handleCmdMessage_slotSafe.
  - intros Hs Hinv. inversion Hs; subst; simpl. exact Hinv.
  - intros Hs (Hsem & Hcap & Hok).
    destruct (workers s !! i) as [w | ] eqn:Hw; [| discriminate]. simpl in Hs.
    destruct (stepWorker o (sem s) (cancelled s) (shared s) w) as [[[n st] w'] | ] eqn:Hstep;
      [| discriminate].
    simpl in Hs. inversion Hs; subst; simpl.
    assert (Hwok : workerOk w).
    { rewrite Forall_forall in Hok. apply Hok. eapply list_elem_of_lookup_2, Hw. }
    destruct (stepWorker_inv _ _ _ _ _ _ _ _ Hstep Hwok) as (Hok' & Hcnt & Hle).
    pose proof (count_insert held (workers s) i w w' Hw) as Hins.
    split; [lia | split; [auto |]].
    apply Forall_insert; assumption.
Qed.

Lemma exec_inv `{lib : Z21Library} (g : Gateway) (acts : list Action) (s s' : System) :
  exec g acts s = Some s' → Inv s → Inv s'.
Proof.
  revert s. induction acts as [| a acts IH]; intros s; simpl.
  - intros Hs. inversion Hs; subst. auto.
  - destruct (step g a s) as [s1 | ] eqn:Hstep; [| discriminate]. simpl.
    intros Hs Hinv. eapply IH; [exact Hs |]. eapply step_inv; eassumption.
Qed.

Lemma Inv_init : Inv init.
Proof. unfold Inv, init, count; simpl. split; [reflexivity | split; [lia | constructor]]. Qed.

Lemma workerOk_counts (ws : list Worker) :
  Forall workerOk ws →
  (count inFlight ws ≤ count held ws)%nat
  ∧ (count held ws + count finished ws ≤ length ws)%nat.
Proof.
  unfold count. induction 1 as [| w ws Hw _ [IH1 IH2]]; simpl; [split; lia |].
  unfold workerOk in Hw.
  destruct w as [h [[u | e k] | ctx req k]]; cbn in *.
  - unfold slotSafe in Hw. simpl in Hw. subst h. simpl. split; lia.
  - destruct h; simpl; split; lia.
  - destruct Hw as [-> _]. simpl. split; lia.
Qed.

Lemma count_pos (p : Worker -> bool) (ws : list Worker) (i : nat) (w : Worker) :
  ws !! i = Some w → p w = true → (0 < count p ws)%nat.
Proof.
  unfold count. revert i. induction ws as [| x ws IH]; intros i Hi Hp; [discriminate |].
  destruct i as [| i]; simpl in Hi |- *.
  - inversion Hi; subst. rewrite Hp. simpl. lia.
  - specialize (IH i Hi Hp). destruct (p x); simpl; lia.
Qed.

Lemma handleCmdMessage_releases_last `{lib : Z21Library} (g : Gateway) (msg : NatsMsg.t)
    (o : Oracle) (st : GwState) :
  o_admit o = true →
  last (trace_of (run (handleCmdMessage g msg) o st)) = Some EvSemRelease.
Proof.
  intros Hadmit. rewrite run_handleCmdMessage, Hadmit.
  destruct (run (doCmdRequest g msg) o st) as [[reply st1] tr1].
  unfold trace_of. simpl. rewrite app_comm_cons, app_assoc. apply last_snoc.
Qed.

(** C1: in every state the dispatcher can reach, under any arrival of
    messages, any interleaving of the workers and any behaviour of the
    device, the serializer and the bus, the number of command requests in
    flight is at most the number of slots taken, which is at most
    [MaxConcurrentCommands] = 4.  A worker contacts the device only between
    its acquire and its release; a worker about to release always finds its
    token, so the release cannot block; the slots taken never exceed the
    number of unfinished workers, so every finished worker has returned
    its slot; and the release is the last step of every admitted handler
    run, also when the reply does not serialize or the publish fails. *)
Theorem dispatcher_in_flight_bounded
    `{lib : Z21Library} (g : Gateway) (acts : list Action) (s : System) :
  exec g acts init = Some s →
  ((count inFlight (workers s) ≤ sem s)%nat
   ∧ (sem s ≤ MaxConcurrentCommands)%nat
   ∧ MaxConcurrentCommands = 4%nat)
  ∧ (sem s + count finished (workers s) ≤ length (workers s))%nat
  ∧ (∀ i w k, workers s !! i = Some w → control w = Ready (Vis EvSemRelease k) →
              (0 < sem s)%nat)
  ∧ (∀ msg, slotSafe (handleCmdMessage g msg) false)
  ∧ (∀ msg o st, o_admit o = true →
                 last (trace_of (run (handleCmdMessage g msg) o st)) = Some EvSemRelease).
Proof.
  intros Hexec.
  destruct (exec_inv g acts init s Hexec Inv_init) as (Hsem & Hcap & Hok).
  destruct (workerOk_counts _ Hok) as [Hfl Hfin].
  split; [split; [lia | split; [exact Hcap | reflexivity]] |].
  split; [lia |]. split; [| split].
  - intros i w k Hw Hc. rewrite Hsem. apply (count_pos held _ i w Hw).
    rewrite Forall_forall in Hok.
    specialize (Hok w (list_elem_of_lookup_2 _ _ _ Hw)).
    unfold workerOk in Hok. rewrite Hc in Hok. simpl in Hok. apply Hok.
  - apply handleCmdMessage_slotSafe.
  - intros msg o st. apply handleCmdMessage_releases_last.
Qed.

Lemma dispatcher_in_flight_witness :
  let msg := {| NatsMsg.Subject := "z21.main.cmd.can.discover";
                NatsMsg.Reply := "_INBOX.1"; NatsMsg.Data := "{}" |} in
  let o := sampleOracle (Some (CanDetector "{7}"), None) in
  let upToDevice i := replicate 5 (Step i o) in
  let acts := (replicate 5 (Deliver msg)
               ++ upToDevice 0 ++ upToDevice 1 ++ upToDevice 2 ++ upToDevice 3)%list in
  ∃ s, exec (lib := sampleLibrary) main acts init = Some s
       ∧ count inFlight (workers s) = 4%nat
       ∧ length (workers s) = 5%nat
       ∧ (count inFlight (workers s) ≤ sem s)%nat
       ∧ (sem s ≤ MaxConcurrentCommands)%nat.
Proof.
  intros msg o upToDevice acts.
  assert (Hobs : (fun s => (count inFlight (workers s), length (workers s)))
                   <$> exec (lib := sampleLibrary) main acts init
                 = Some (4%nat, 5%nat)) by (vm_compute; reflexivity).
  destruct (exec (lib := sampleLibrary) main acts init) as [s | ] eqn:Hexec;
    [| discriminate Hobs].
  simpl in Hobs. injection Hobs as Hfl Hlen.
  exists s. split; [reflexivity |]. split; [exact Hfl |]. split; [exact Hlen |].
  pose proof (dispatcher_in_flight_bounded (lib := sampleLibrary) main acts s Hexec)
    as ((Hle & Hcap & _) & _).
  split; [exact Hle | exact Hcap].
Defined.

(** Five messages at once: four workers are admitted and reach the device;
    the fifth cannot acquire; once the first worker has finished, the fifth
    is admitted. *)
Example fifth_worker_waits_for_a_release :
  let msg := {| NatsMsg.Subject := "z21.main.cmd.can.discover";
                NatsMsg.Reply := "_INBOX.1"; NatsMsg.Data := "{}" |} in
  let o := sampleOracle (Some (CanDetector "{7}"), None) in
  let upToDevice i := replicate 5 (Step i o) in
  let acts := (replicate 5 (Deliver msg)
               ++ upToDevice 0 ++ upToDevice 1 ++ upToDevice 2 ++ upToDevice 3)%list in
  sem <$> exec (lib := sampleLibrary) main (acts ++ [Step 4 o]) init = None
  ∧ sem <$> exec (lib := sampleLibrary) main (acts ++ replicate 6 (Step 0 o)) init
    = Some 3%nat
  ∧ sem <$> exec (lib := sampleLibrary) main
              (acts ++ replicate 6 (Step 0 o) ++ [Step 4 o]) init
    = Some 4%nat
  ∧ sem <$> exec (lib := sampleLibrary) main (acts ++ replicate 7 (Step 0 o)) init = None.
Proof. vm_compute. repeat split; reflexivity. Qed.

(** * Further properties *)

(** ** The event relay and the loops *)

Lemma run_publishEvent `{lib : Z21Library} `{str : Z21Stringer} (g : Gateway)
    (e : option Serializable) (o : Oracle) (st : GwState) :
  run (publishEvent g e) o st
  = (tt, st,
     match encodeValue (VIface e) with
     | Err_ err => [EvLog (Err err (logger ErrorLevel)) "failed to marshall event"]
     | Ok_ data =>
         let subject := "z21." +:+ name g +:+ ".event." +:+ fmt_s e in
         [EvPublish subject data;
          match o_bus o subject data with
          | Some err => EvLog (Err err (logger ErrorLevel)) "failed to publish"
          | None => EvLog (Str "subject" subject (logger InfoLevel)) "NATS pub"
          end]
     end).
Proof.
  unfold publishEvent. destruct (encodeValue (VIface e)) as [data | err]; [| reflexivity].
  simpl. destruct (o_bus o _ data); reflexivity.
Qed.

Lemma loopPublishes_app (r : Routine) (l1 l2 : list Act) :
  loopPublishes r (l1 ++ l2) = (loopPublishes r l1 ++ loopPublishes r l2)%list.
Proof. unfold loopPublishes. apply omap_app. Qed.

Lemma loopPublishes_AGw_same (r : Routine) (tr : list Event) :
  loopPublishes r (AGw (Some r) <$> tr) = publishes tr.
Proof.
  unfold loopPublishes, publishes.
  destruct r; (induction tr as [| e tr IH]; [reflexivity |]);
    destruct e; cbn in *; rewrite ?IH; reflexivity.
Qed.

Lemma loopPublishes_AGw_other (r r' : Routine) (tr : list Event) :
  r ≠ r' → loopPublishes r (AGw (Some r') <$> tr) = [].
Proof.
  unfold loopPublishes. intros Hne.
  destruct r, r'; try congruence; (induction tr as [| e tr IH]; [reflexivity |]);
    destruct e; cbn in *; rewrite ?IH; reflexivity.
Qed.

Lemma publishes_publishEvent `{lib : Z21Library} `{str : Z21Stringer} (g : Gateway)
    (e : option Serializable) (o : Oracle) (st : GwState) :
  publishes (trace_of (run (publishEvent g e) o st)) = option_list (relayed g e).
Proof.
  rewrite run_publishEvent. unfold relayed, trace_of.
  destruct (encodeValue (VIface e)) as [data | err]; [| reflexivity].
  simpl. destruct (o_bus o _ data); reflexivity.
Qed.

Lemma publishes_monitorOnlineStatus_recv `{lib : Z21Library} (v : bool) (o : Oracle)
    (st : GwState) :
  publishes (trace_of (run (monitorOnlineStatus_recv v) o st)) = [].
Proof. rewrite run_monitorOnlineStatus_recv. destruct v; reflexivity. Qed.

Ltac rt_cases :=
  repeat match goal with
    | H : Some _ = Some _ |- _ => apply (inj Some) in H; subst
    | H : None = Some _ |- _ => discriminate H
    | H : context [match ?x with _ => _ end] |- _ =>
        match type of x with
        | Phase => destruct x eqn:?
        | MainPc => destruct x eqn:?
        | option _ => destruct x eqn:?
        | bool => destruct x eqn:?
        | nat => destruct x eqn:?
        | prod _ _ => destruct x
        end
    | H : context [if ?x then _ else _] |- _ => destruct x eqn:?
    end.

Ltac rt_publishes :=
  cbn [acts];
  repeat match goal with
    | |- context [?a :: AGw (Some ?r) <$> ?tr] =>
        change (a :: AGw (Some r) <$> tr) with ([a] ++ (AGw (Some r) <$> tr))%list
    end;
  rewrite ?loopPublishes_app;
  rewrite ?loopPublishes_AGw_same, ?loopPublishes_AGw_other by discriminate;
  rewrite ?publishes_monitorOnlineStatus_recv, ?publishes_publishEvent;
  repeat match goal with
    | |- context [publishes (trace_of (run (doHeartbeatCheck ?g) ?o ?st))] =>
        rewrite (proj1 (run_doHeartbeatCheck_trace g o st))
    end;
  cbn [loopPublishes omap list_omap app length]; rewrite ?app_nil_r, ?length_app;
  cbn [length]; split; lia || reflexivity.

(** What one step adds to the publishes of the relay and of the heartbeat. *)
Lemma rtStep_publishes `{lib : Z21Library} `{str : Z21Stringer} (g : Gateway)
    (a : RtAction) (rt rt' : Runtime) :
  rtStep g a rt = Some rt' →
  loopPublishes Z21EventsLoop (acts rt')
  = (loopPublishes Z21EventsLoop (acts rt)
     ++ match a with
        | EvStep (Some (e, _)) => option_list (relayed g e)
        | _ => []
        end)%list
  ∧ length (loopPublishes HeartbeatLoop (acts rt'))
    = (length (loopPublishes HeartbeatLoop (acts rt))
       + match a with HbStep (Some _) => 1 | _ => 0 end)%nat.
Proof.
  intros Hstep.
  destruct a as [subErr | | sel | sel | sel | wa]; cbn [rtStep] in Hstep.
  - unfold mainStep, launch, natsCommandsLoop, mainTo in Hstep. rt_cases; rt_publishes.
  - apply (inj Some) in Hstep; subst. unfold mainTo. rt_publishes.
  - unfold heartbeatLoop, loopBody, loopExit in Hstep. rt_cases; rt_publishes.
  - unfold monitorOnlineStatus, loopBody, loopExit in Hstep. rt_cases; rt_publishes.
  - unfold z21EventsLoop, loopBody, loopExit in Hstep. rt_cases; rt_publishes.
  - unfold workerStep, withSys in Hstep. destruct wa; rt_cases;
      repeat match goal with
        | H : _ <$> ?x = Some _ |- _ =>
            destruct x; cbn [fmap option_fmap option_map] in H;
            [apply (inj Some) in H; subst | discriminate H]
        end; rt_publishes.
Qed.

Lemma rtExec_publishes `{lib : Z21Library} `{str : Z21Stringer} (g : Gateway)
    (steps : list RtAction) (rt rt' : Runtime) :
  rtExec g steps rt = Some rt' →
  loopPublishes Z21EventsLoop (acts rt')
  = (loopPublishes Z21EventsLoop (acts rt) ++ omap (relayed g) (receivedEvents steps))%list
  ∧ length (loopPublishes HeartbeatLoop (acts rt'))
    = (length (loopPublishes HeartbeatLoop (acts rt)) + probes steps)%nat.
Proof.
  revert rt. induction steps as [| a steps IH]; intros rt Hexec; cbn [rtExec] in Hexec.
  - apply (inj Some) in Hexec; subst. rewrite app_nil_r. split; [reflexivity | unfold probes; simpl; lia].
  - destruct (rtStep g a rt) as [rt1 | ] eqn:Hstep; [| discriminate Hexec].
    cbn [mbind option_bind] in Hexec.
    destruct (rtStep_publishes g a rt rt1 Hstep) as [Hev Hhb].
    destruct (IH rt1 Hexec) as [IHev IHhb].
    rewrite IHev, IHhb, Hev, Hhb. split.
    + rewrite <- app_assoc. f_equal.
      destruct a as [| | | | [[e o] | ] | ]; try reflexivity.
      unfold receivedEvents. cbn [omap list_omap]. fold (receivedEvents steps).
      destruct (relayed g e); reflexivity.
    + unfold probes. destruct a as [| | [o | ] | | | ]; simpl; lia.
Qed.


(** ** Start, Stop and the wait group *)

Ltac rt_fields :=
  cbn [wg hb mon ev subscribed pc sys zcClosed acts live withCancelled withShared withSys
       mainTo launch natsCommandsLoop loopBody cancelled workers sem shared phasesAt] in *.

Lemma Inv_withShared (s : System) (st : GwState) : Inv s → Inv (withShared s st).
Proof. unfold Inv. destruct s; simpl. auto. Qed.

Lemma Inv_withCancelled (s : System) : Inv s → Inv (withCancelled s).
Proof. unfold Inv. destruct s; simpl. auto. Qed.

Lemma step_keeps_cancelled `{lib : Z21Library} (g : Gateway) (a : Action) (s s' : System) :
  step g a s = Some s' → a ≠ Cancel → cancelled s' = cancelled s.
Proof.
  destruct a as [msg | | i o]; simpl; intros Hs Hne; [| congruence |].
  - apply (inj Some) in Hs; subst. reflexivity.
  - destruct (workers s !! i) as [w | ]; [| discriminate]. simpl in Hs.
    destruct (stepWorker o _ _ _ w) as [[[n st] w'] | ]; [| discriminate].
    simpl in Hs. apply (inj Some) in Hs; subst. reflexivity.
Qed.

Lemma phase_exited (p : Phase) : p ≠ NotStarted → live p = 0%nat → p = Exited.
Proof. destruct p; simpl; congruence || lia. Qed.

Ltac rt_finish Hlen Hprobe :=
  first
    [ assumption | reflexivity | exact I
    | solve [auto using Inv_withShared, Inv_withCancelled]
    | solve [cbn [live] in *; lia]
    | solve [intuition congruence]
    | solve [intros Hx; rewrite Hlen;
             first [ lia
                   | specialize (Hprobe Hx); lia
                   | specialize (Hprobe (or_introl eq_refl)); lia
                   | specialize (Hprobe (or_intror eq_refl)); lia
                   | destruct Hx; congruence ]]
    | solve [intros; apply phase_exited; [intuition congruence | cbn [live] in *; lia]] ].

Ltac rt_split := refine (conj _ (conj _ (conj _ (conj _ (conj _ (conj _ _)))))).

Lemma rtStep_inv `{lib : Z21Library} `{str : Z21Stringer} (g : Gateway)
    (a : RtAction) (rt rt' : Runtime) :
  rtStep g a rt = Some rt' → RtInv rt → RtInv rt'.
Proof.
  intros Hstep HI.
  destruct (rtStep_publishes g a rt rt' Hstep) as [_ Hlen].
  destruct rt as [s w h m e sb p z l]. unfold RtInv in *. rt_fields.
  destruct HI as (Hwg & Hph & Hsub & Hpcs & Hcan & Hprobe & Hinv).
  destruct a as [subErr | | sel | sel | sel | wa]; cbn [rtStep] in Hstep.
  - unfold mainStep in Hstep. rt_fields.
    destruct p; rt_cases; rt_fields; destruct Hph as (Hh & Hm & He); subst;
      rt_split; try rt_finish Hlen Hprobe.
    cbn [live] in *. repeat split; apply phase_exited; auto; lia.
  - apply (inj Some) in Hstep; subst. rt_fields. rt_split; try rt_finish Hlen Hprobe.
    all: destruct p; try rt_finish Hlen Hprobe.
  - unfold heartbeatLoop, loopExit in Hstep. rt_fields.
    rt_cases; rt_fields; rt_split; try rt_finish Hlen Hprobe.
    all: destruct p; cbn [phasesAt] in *; intuition congruence.
  - unfold monitorOnlineStatus, loopExit in Hstep. rt_fields.
    rt_cases; rt_fields; rt_split; try rt_finish Hlen Hprobe.
    all: destruct p; cbn [phasesAt] in *; intuition congruence.
  - unfold z21EventsLoop, loopExit in Hstep. rt_fields.
    rt_cases; rt_fields; rt_split; try rt_finish Hlen Hprobe.
    all: destruct p; cbn [phasesAt] in *; intuition congruence.
  - unfold workerStep in Hstep. rt_fields.
    assert (Hs : ∃ s', step g wa s = Some s'
                       ∧ rt' = {| sys := s'; wg := w; hb := h; mon := m; ev := e;
                                  subscribed := sb; pc := p; zcClosed := z; acts := l |}
                       ∧ wa ≠ Cancel ∧ (sb = false → workers s' = [])).
    { destruct wa as [msg | | i o]; [| discriminate |].
      - destruct sb eqn:Hsb; [| discriminate].
        destruct (step g (Deliver msg) s) as [s' | ] eqn:Hs; [| discriminate].
        apply (inj Some) in Hstep. subst rt'. exists s'.
        split; [reflexivity |]. split; [reflexivity |]. split; congruence.
      - destruct (step g (Step i o) s) as [s' | ] eqn:Hs; [| discriminate].
        apply (inj Some) in Hstep. subst rt'. exists s'.
        split; [reflexivity |]. split; [reflexivity |]. split; [congruence |].
        intros Hsb. cbn [step] in Hs. rewrite (Hsub Hsb) in Hs. discriminate Hs. }
    destruct Hs as (s' & Hs & -> & Hne & Hws). rt_fields.
    rt_split; try rt_finish Hlen Hprobe.
    + rewrite (step_keeps_cancelled g wa _ _ Hs Hne). exact Hcan.
    + eapply step_inv; eassumption.
Qed.

Lemma rtExec_inv `{lib : Z21Library} `{str : Z21Stringer} (g : Gateway)
    (steps : list RtAction) (rt rt' : Runtime) :
  rtExec g steps rt = Some rt' → RtInv rt → RtInv rt'.
Proof.
  revert rt. induction steps as [| a steps IH]; intros rt Hexec HI; cbn [rtExec] in Hexec.
  - apply (inj Some) in Hexec; subst. exact HI.
  - destruct (rtStep g a rt) as [rt1 | ] eqn:Hstep; [| discriminate Hexec].
    cbn [mbind option_bind] in Hexec.
    eapply IH; [exact Hexec |]. eapply rtStep_inv; eassumption.
Qed.

Lemma RtInv_rtInit : RtInv rtInit.
Proof.
  unfold RtInv, rtInit. cbn [wg hb mon ev subscribed pc sys acts live phasesAt].
  rt_split; auto using Inv_init.
  intros [? | ?]; discriminate.
Qed.

Lemma loopEvents_app (l1 l2 : list Act) :
  loopEvents (l1 ++ l2) = (loopEvents l1 ++ loopEvents l2)%list.
Proof. unfold loopEvents. apply omap_app. Qed.

(** Once [Stop] is past its wait, no step of a loop is possible and the
    record of the loops' events stays as it is. *)
Lemma rtStep_after_wait `{lib : Z21Library} `{str : Z21Stringer} (g : Gateway)
    (a : RtAction) (rt rt' : Runtime) :
  rtStep g a rt = Some rt' → RtInv rt →
  pc rt = StopFlush ∨ pc rt = Stopped →
  (pc rt' = StopFlush ∨ pc rt' = Stopped) ∧ loopEvents (acts rt') = loopEvents (acts rt).
Proof.
  intros Hstep (_ & Hph & _) Hpc.
  destruct rt as [s w h m e sb p z l]. rt_fields.
  assert (Hex : h = Exited ∧ m = Exited ∧ e = Exited)
    by (destruct Hpc; subst p; exact Hph).
  destruct Hex as (-> & -> & ->).
  destruct a as [subErr | | sel | sel | sel | wa]; cbn [rtStep] in Hstep.
  - unfold mainStep in Hstep. rt_fields. destruct Hpc; subst p; [| discriminate].
    apply (inj Some) in Hstep; subst. rt_fields. split; [auto |].
    rewrite loopEvents_app. simpl. apply app_nil_r.
  - apply (inj Some) in Hstep; subst. rt_fields. split; [auto |]. f_equal. apply app_nil_r.
  - unfold heartbeatLoop in Hstep. rt_fields. destruct sel; discriminate.
  - unfold monitorOnlineStatus in Hstep. rt_fields. destruct sel; discriminate.
  - unfold z21EventsLoop in Hstep. rt_fields. destruct sel as [[? ?] | ]; discriminate.
  - unfold workerStep in Hstep. rt_fields.
    destruct wa as [msg | | i o]; [destruct sb; [| discriminate] | discriminate |];
      (destruct (step g _ s) as [s' | ]; [| discriminate]);
      apply (inj Some) in Hstep; subst; split; auto.
Qed.

(** [Stop] waits for the loops, and for them only as far as the wait
    group goes.  In every reachable state the counter of [g.wg] equals the
    number of loops started and not yet returned, so no [wg.Done] takes it
    below zero; when [Stop] is past [g.wg.Wait()], all three loops have
    returned; and whatever runs afterwards adds no event of a loop: no
    status message, no relayed event, no arming request after [Stop]. *)
Theorem Stop_waits_for_the_loops `{lib : Z21Library} `{str : Z21Stringer}
    (g : Gateway) (steps : list RtAction) (rt : Runtime) :
  rtExec g steps rtInit = Some rt →
  wg rt = (live (hb rt) + live (mon rt) + live (ev rt))%nat
  ∧ (pc rt = StopFlush ∨ pc rt = Stopped →
     (hb rt = Exited ∧ mon rt = Exited ∧ ev rt = Exited)
     ∧ ∀ more rt', rtExec g more rt = Some rt' →
                   loopEvents (acts rt') = loopEvents (acts rt)).
Proof.
  intros Hexec. pose proof (rtExec_inv g steps rtInit rt Hexec RtInv_rtInit) as HI.
  split; [apply HI |]. intros Hpc. split.
  - destruct HI as (_ & Hph & _). destruct Hpc as [Hpc | Hpc]; rewrite Hpc in Hph; exact Hph.
  - intros more. clear Hexec. revert rt HI Hpc.
    induction more as [| a more IH]; intros rt HI Hpc rt' Hmore; cbn [rtExec] in Hmore.
    + apply (inj Some) in Hmore; subst. reflexivity.
    + destruct (rtStep g a rt) as [rt1 | ] eqn:Hstep; [| discriminate Hmore].
      cbn [mbind option_bind] in Hmore.
      destruct (rtStep_after_wait g a rt rt1 Hstep HI Hpc) as [Hpc1 Heq].
      rewrite <- Heq. apply IH; auto. eapply rtStep_inv; eassumption.
Qed.


Lemma Stop_waits_witness :
  ∃ rt, rtExec (lib := sampleLibrary) (str := sampleStringer) main sampleLife rtInit = Some rt
        ∧ pc rt = Stopped
        ∧ wg rt = 0%nat
        ∧ hb rt = Exited ∧ mon rt = Exited ∧ ev rt = Exited.
Proof.
  assert (Hobs : pc <$> rtExec (lib := sampleLibrary) (str := sampleStringer)
                          main sampleLife rtInit
                 = Some Stopped) by (vm_compute; reflexivity).
  destruct (rtExec (lib := sampleLibrary) (str := sampleStringer) main sampleLife rtInit)
    as [rt | ] eqn:Hexec; [| discriminate Hobs].
  simpl in Hobs. apply (inj Some) in Hobs.
  pose proof (Stop_waits_for_the_loops (lib := sampleLibrary) (str := sampleStringer)
                main sampleLife rt Hexec) as [Hwg Hstop].
  destruct (Hstop (or_intror Hobs)) as [(Hh & Hm & He) _].
  exists rt. split; [reflexivity |]. split; [exact Hobs |].
  split; [rewrite Hwg, Hh, Hm, He; reflexivity |]. auto.
Defined.

(** The heartbeat probes before it waits.  The number of status messages
    [heartbeatLoop] has published equals the number of checks it has run;
    the first check precedes the first select, so a loop that is waiting or
    has returned has published at least once, also when the context was
    cancelled before the loop started. *)
Theorem heartbeatLoop_probes_before_it_waits `{lib : Z21Library} `{str : Z21Stringer}
    (g : Gateway) (steps : list RtAction) (rt : Runtime) :
  rtExec g steps rtInit = Some rt →
  length (loopPublishes HeartbeatLoop (acts rt)) = probes steps
  ∧ (hb rt = Looping ∨ hb rt = Exited → (1 ≤ probes steps)%nat).
Proof.
  intros Hexec.
  destruct (rtExec_publishes g steps rtInit rt Hexec) as [_ Hlen].
  pose proof (rtExec_inv g steps rtInit rt Hexec RtInv_rtInit)
    as (_ & _ & _ & _ & _ & Hprobe & _).
  simpl in Hlen. split; [exact Hlen |].
  intros Hx. specialize (Hprobe Hx). lia.
Qed.

Lemma heartbeatLoop_probes_witness :
  let o := sampleOracle (Some (SerialNumber 12345), None) in
  let steps := [MainStep None; Signal; HbStep (Some o); HbStep None] in
  ∃ rt, rtExec (lib := sampleLibrary) (str := sampleStringer) main steps rtInit = Some rt
        ∧ hb rt = Exited
        ∧ length (loopPublishes HeartbeatLoop (acts rt)) = 1%nat.
Proof.
  intros o steps.
  assert (Hobs : hb <$> rtExec (lib := sampleLibrary) (str := sampleStringer)
                          main steps rtInit
                 = Some Exited) by (vm_compute; reflexivity).
  destruct (rtExec (lib := sampleLibrary) (str := sampleStringer) main steps rtInit)
    as [rt | ] eqn:Hexec; [| discriminate Hobs].
  simpl in Hobs. apply (inj Some) in Hobs.
  exists rt. split; [reflexivity |]. split; [exact Hobs |].
  exact (proj1 (heartbeatLoop_probes_before_it_waits
                  (lib := sampleLibrary) (str := sampleStringer) main steps rt Hexec)).
Defined.



(** A run of two schedules is the run of the first, then of the second. *)
Lemma rtExec_app `{lib : Z21Library} `{str : Z21Stringer} (g : Gateway)
    (l1 l2 : list RtAction) (rt : Runtime) :
  rtExec g (l1 ++ l2)%list rt = rtExec g l1 rt ≫= rtExec g l2.
Proof.
  revert rt. induction l1 as [| a l1 IH]; intros rt; cbn [rtExec app].
  - reflexivity.
  - destruct (rtStep g a rt) as [rt1 | ]; cbn [mbind option_bind]; [apply IH | reflexivity].
Qed.

(** Only a dispatch touches the workers and the semaphore. *)
Lemma rtStep_keeps_workers `{lib : Z21Library} `{str : Z21Stringer} (g : Gateway)
    (a : RtAction) (rt rt' : Runtime) :
  rtStep g a rt = Some rt' →
  match a with
  | Dispatch _ => True
  | _ => workers (sys rt') = workers (sys rt) ∧ sem (sys rt') = sem (sys rt)
  end.
Proof.
  intros Hstep. destruct rt as [s w h m e sb p z l].
  destruct a as [subErr | | sel | sel | sel | wa]; [| | | | | exact I];
    cbn [rtStep] in Hstep;
    unfold mainStep, heartbeatLoop, monitorOnlineStatus, z21EventsLoop, loopExit in Hstep;
    rt_fields; rt_cases; rt_fields; split; reflexivity.
Qed.

Lemma rtExec_keeps_workers `{lib : Z21Library} `{str : Z21Stringer} (g : Gateway)
    (steps : list RtAction) (rt rt' : Runtime) :
  rtExec g steps rt = Some rt' →
  Forall (fun a => match a with Dispatch _ => False | _ => True end) steps →
  workers (sys rt') = workers (sys rt) ∧ sem (sys rt') = sem (sys rt).
Proof.
  revert rt. induction steps as [| a steps IH]; intros rt Hexec Hall; cbn [rtExec] in Hexec.
  - apply (inj Some) in Hexec; subst. split; reflexivity.
  - destruct (rtStep g a rt) as [rt1 | ] eqn:Hstep; [| discriminate Hexec].
    cbn [mbind option_bind] in Hexec.
    apply Forall_cons in Hall as [Ha Hall].
    pose proof (rtStep_keeps_workers g a rt rt1 Hstep) as Hk.
    destruct (IH rt1 Hexec Hall) as [Hw Hs]. rewrite Hw, Hs.
    destruct a; try exact Hk. destruct Ha.
Qed.

(** [Stop] does not wait for command workers: they are not in the wait
    group.  For every message there is a run in which [Stop] has returned
    while the worker of that message has taken its slot and done nothing
    else: what it still has to run is the whole of [handleCmdMessage] after
    the acquire, so the device request, the reply's publish and the release
    of the slot all come after [Stop]. *)
Theorem Stop_does_not_wait_for_workers `{lib : Z21Library} `{str : Z21Stringer}
    (g : Gateway) (msg : NatsMsg.t) :
  ∃ steps rt body,
    rtExec g steps rtInit = Some rt
    ∧ pc rt = Stopped
    ∧ handleCmdMessage g msg = Vis EvSemAcquire body
    ∧ workers (sys rt) = [{| held := true; control := Ready (body true) |}]
    ∧ finished {| held := true; control := Ready (body true) |} = false
    ∧ sem (sys rt) = 1%nat
    ∧ ∀ now dev bus st,
        let o := {| o_now := now; o_device := dev; o_bus := bus; o_admit := true |} in
        trace_of (run (handleCmdMessage g msg) o st)
        = EvSemAcquire :: trace_of (run (body true) o st).
Proof.
  assert (Hk : ∃ body, handleCmdMessage g msg = Vis EvSemAcquire body
                       ∧ finished {| held := true; control := Ready (body true) |} = false)
    by (eexists; split; reflexivity).
  destruct Hk as (body & Hk & Hfin).
  pose (o := sampleOracle (None, None)).
  pose (start := [MainStep None; MainStep None; MainStep None; MainStep None]).
  pose (stop := [MainStep None; HbStep (Some o); HbStep None; MonStep None; EvStep None;
                 MainStep None; MainStep None; MainStep None]).
  pose (steps := (start ++ [Dispatch (Deliver msg); Dispatch (Step 0 o)] ++ stop)%list).
  assert (Hobs : pc <$> rtExec g steps rtInit = Some Stopped) by (vm_compute; reflexivity).
  destruct (rtExec g steps rtInit) as [rt | ] eqn:Hexec; [| discriminate Hobs].
  cbn [fmap option_fmap option_map] in Hobs. apply (inj Some) in Hobs.
  exists steps, rt, body. split; [exact Hexec |]. split; [exact Hobs |].
  split; [exact Hk |].
  (* the run, cut at the delivery and after the acquire *)
  unfold steps in Hexec. rewrite rtExec_app in Hexec.
  destruct (rtExec g start rtInit) as [rtA | ] eqn:HA; [| discriminate Hexec].
  cbn [mbind option_bind] in Hexec. rewrite rtExec_app in Hexec.
  destruct (rtExec g [Dispatch (Deliver msg); Dispatch (Step 0 o)] rtA) as [rtC | ] eqn:HC;
    [| discriminate Hexec].
  cbn [mbind option_bind] in Hexec.
  destruct (rtExec_keeps_workers g start rtInit rtA HA) as [HwA HsA];
    [unfold start; repeat constructor |].
  destruct (rtExec_keeps_workers g stop rtC rt Hexec) as [Hw Hs];
    [unfold stop; repeat constructor |].
  rewrite Hw, Hs. clear Hexec Hw Hs HA Hobs.
  cbn [rtInit sys init workers sem] in HwA, HsA.
  assert (HrtC : workers (sys rtC) = [{| held := true; control := Ready (body true) |}]
                 ∧ sem (sys rtC) = 1%nat).
  { destruct rtA as [[n c st ws] w h m e sb p z l]. rt_fields. subst ws n.
    cbn [rtExec rtStep workerStep] in HC. rt_fields.
    destruct sb; [| discriminate HC].
    cbn [step fmap option_fmap option_map mbind option_bind] in HC. rt_fields.
    unfold spawn in HC. rewrite Hk in HC.
    cbn in HC. apply (inj Some) in HC; subst rtC. split; reflexivity. }
  destruct HrtC as [-> ->]. split; [reflexivity |]. split; [exact Hfin |].
  split; [reflexivity |].
  intros now dev bus st o'. subst o'. rewrite Hk. cbn [run answer o_admit].
  destruct (run (body true) _ st) as [[u st'] tr]. reflexivity.
Qed.

(** ** Transitions: what the heartbeat offers and what the monitor does *)

Lemma offers_app (tr1 tr2 : list Event) :
  offers (tr1 ++ tr2) = (offers tr1 ++ offers tr2)%list.
Proof. unfold offers. apply omap_app. Qed.

(** One step of the two loops: the state after it, the offers and the
    arming requests it made. *)
Lemma loopStep_effects `{lib : Z21Library} (g : Gateway) (a : LoopAction) (st : GwState) :
  let '(st1, tr1) := loopStep g a st in
  match a with
  | Tick o =>
      let r := reachableOf (probe o) in
      isOnline st1 = r
      ∧ offers tr1 = (if negb (eqb r (isOnline st)) then [r] else [])
      ∧ onlineStatus st1
        = (if negb (eqb r (isOnline st))
           then match onlineStatus st with None => Some r | Some v => Some v end
           else onlineStatus st)
      ∧ armings tr1 = 0%nat
  | Receive _ =>
      isOnline st1 = isOnline st
      ∧ offers tr1 = []
      ∧ onlineStatus st1 = None
      ∧ armings tr1 = pendingOnline st
  end.
Proof.
  destruct a as [o | o]; cbn [loopStep].
  - pose proof (run_doHeartbeatCheck_state g o st) as Hst.
    destruct (run_doHeartbeatCheck_trace g o st) as (_ & Hoff & Hdev).
    cbv zeta in Hst, Hoff, Hdev. rewrite run_checkReachability in Hoff.
    unfold result_of in Hoff. cbn [fst StatusMsg.Reachable] in Hoff.
    rewrite Hst, Hoff. unfold armings. rewrite Hdev.
    destruct (reachableOf (probe o)), (isOnline st) eqn:Hon; simpl;
      repeat split; auto.
  - unfold pendingOnline. destruct st as [on [v | ]]; cbn [onlineStatus isOnline].
    + rewrite run_monitorOnlineStatus_recv. destruct v; repeat split; reflexivity.
    + repeat split; reflexivity.
Qed.

(** The transitions the heartbeat offers alternate: over any interleaving of
    ticks and receives, the first value offered is the opposite of the
    stored [isOnline] and every later one the opposite of the one before, so
    the same value is never offered twice in a row, whatever the bus and
    the monitor do. *)
Theorem offered_transitions_alternate `{lib : Z21Library} (g : Gateway)
    (acts : list LoopAction) (st : GwState) :
  alternates (negb (isOnline st)) (offers (loops g acts st).2).
Proof.
  revert st. induction acts as [| a acts IH]; intros st; [exact I |].
  cbn [loops]. pose proof (loopStep_effects g a st) as Hstep.
  destruct (loopStep g a st) as [st1 tr1].
  specialize (IH st1). destruct (loops g acts st1) as [st2 tr2].
  cbn [snd] in *. rewrite offers_app.
  destruct a as [o | o].
  - destruct Hstep as (Hon & Hoff & _). rewrite Hoff. rewrite Hon in IH.
    destruct (reachableOf (probe o)), (isOnline st); simpl in *; auto.
  - destruct Hstep as (Hon & Hoff & _). rewrite Hoff. rewrite Hon in IH. exact IH.
Qed.

(** The stored state follows the probes: after any interleaving of ticks and
    receives, [isOnline] is the reachable flag of the last probe (the
    initial value when there was none), also when the transition was
    dropped or the status publish failed. *)
Theorem isOnline_is_the_last_probe `{lib : Z21Library} (g : Gateway)
    (acts : list LoopAction) (st : GwState) :
  isOnline (loops g acts st).1 = lastReachable (isOnline st) acts.
Proof.
  revert st. induction acts as [| a acts IH]; intros st; [reflexivity |].
  cbn [loops]. pose proof (loopStep_effects g a st) as Hstep.
  destruct (loopStep g a st) as [st1 tr1].
  specialize (IH st1). destruct (loops g acts st1) as [st2 tr2].
  cbn [fst] in *. rewrite IH.
  destruct a as [o | o]; destruct Hstep as (Hon & _); rewrite Hon; reflexivity.
Qed.

Lemma armings_app (tr1 tr2 : list Event) :
  armings (tr1 ++ tr2) = (armings tr1 + armings tr2)%nat.
Proof. unfold armings. rewrite deviceCalls_app, List.filter_app, length_app. reflexivity. Qed.

Lemma onlineOffers_app (tr1 tr2 : list Event) :
  onlineOffers (tr1 ++ tr2) = (onlineOffers tr1 + onlineOffers tr2)%nat.
Proof. unfold onlineOffers. rewrite offers_app, List.filter_app, length_app. reflexivity. Qed.

(** The monitor arms only on a detected transition to online: over any
    interleaving, the arming requests made, plus an online transition still
    buffered at the end, never exceed the online transitions the heartbeat
    offered plus the one buffered at the start.  Started with an empty
    buffer, the gateway never arms more often than it has seen the device
    come online. *)
Theorem arming_follows_online_transitions `{lib : Z21Library} (g : Gateway)
    (acts : list LoopAction) (st : GwState) :
  let '(st', tr) := loops g acts st in
  (armings tr + pendingOnline st' ≤ onlineOffers tr + pendingOnline st)%nat.
Proof.
  revert st. induction acts as [| a acts IH]; intros st; [simpl; lia |].
  cbn [loops]. pose proof (loopStep_effects g a st) as Hstep.
  destruct (loopStep g a st) as [st1 tr1].
  specialize (IH st1). destruct (loops g acts st1) as [st2 tr2].
  rewrite armings_app, onlineOffers_app.
  assert (Hone : (armings tr1 + pendingOnline st1 ≤ onlineOffers tr1 + pendingOnline st)%nat);
    [| lia].
  unfold onlineOffers, pendingOnline in *.
  destruct a as [o | o]; destruct Hstep as (_ & Hoff & Hbuf & Harm);
    rewrite Hoff, Hbuf, Harm.
  - destruct (reachableOf (probe o)), (isOnline st), (onlineStatus st) as [[|] | ];
      simpl; lia.
  - unfold pendingOnline. simpl. lia.
Qed.

(** ** Command dispatcher: progress and bounded handlers *)

(** A worker that holds a slot is never blocked: in every reachable state
    its next step is possible under every environment, so an admitted
    handler cannot deadlock and its release always finds a token. *)
Theorem held_worker_can_step `{lib : Z21Library} (g : Gateway) (acts : list Action)
    (s : System) (i : nat) (w : Worker) (o : Oracle) :
  exec g acts init = Some s →
  workers s !! i = Some w →
  held w = true →
  is_Some (step g (Step i o) s).
Proof.
  intros Hexec Hw Hheld.
  destruct (exec_inv g acts init s Hexec Inv_init) as (Hsem & _ & Hok).
  assert (Hpos : (0 < sem s)%nat) by (rewrite Hsem; eapply count_pos; eassumption).
  rewrite Forall_forall in Hok. specialize (Hok w (list_elem_of_lookup_2 _ _ _ Hw)).
  cbn [step]. rewrite Hw. cbn [mbind option_bind].
  unfold workerOk in Hok. unfold stepWorker.
  destruct w as [h [[u | e k] | ctx req k]]; cbn [held control] in *; subst h.
  - unfold slotSafe in Hok. simpl in Hok. discriminate Hok.
  - destruct e; simpl in Hok |- *; try (eexists; reflexivity).
    + destruct Hok as [Hok _]. discriminate Hok.
    + destruct (sem s) as [| n]; [lia |]. eexists; reflexivity.
  - eexists; reflexivity.
Qed.

Lemma held_worker_can_step_witness :
  let msg := {| NatsMsg.Subject := "z21.main.cmd.can.discover";
                NatsMsg.Reply := "_INBOX.1"; NatsMsg.Data := "{}" |} in
  let o := sampleOracle (None, Some "context deadline exceeded") in
  let acts := [Deliver msg; Step 0 o; Step 0 o] in
  ∃ s w, exec (lib := sampleLibrary) main acts init = Some s
         ∧ workers s !! 0%nat = Some w
         ∧ held w = true
         ∧ is_Some (step (lib := sampleLibrary) main (Step 0 o) s).
Proof.
  intros msg o acts.
  assert (Hobs : (fun s => held <$> workers s)
                   <$> exec (lib := sampleLibrary) main acts init
                 = Some [true]) by (vm_compute; reflexivity).
  destruct (exec (lib := sampleLibrary) main acts init) as [s | ] eqn:Hexec;
    [| discriminate Hobs].
  cbn [fmap option_fmap option_map] in Hobs. apply (inj Some) in Hobs.
  destruct (workers s) as [| w ws] eqn:Hws; [discriminate Hobs |].
  cbn [fmap list_fmap] in Hobs.
  assert (Hheld : held w = true) by congruence.
  assert (Hw : workers s !! 0%nat = Some w) by (rewrite Hws; reflexivity).
  exists s, w. split; [reflexivity |]. split; [exact Hw |].
  split; [exact Hheld |].
  exact (held_worker_can_step (lib := sampleLibrary) main acts s 0 w o Hexec Hw Hheld).
Defined.

Lemma endsWithin_mono {A : Type} (p : Prog A) (n m : nat) :
  (n ≤ m)%nat → endsWithin n p → endsWithin m p.
Proof.
  revert n m. induction p as [a | e k IH]; intros n m Hle; [intros; exact I |].
  destruct n as [| n]; [intros Hfalse; destruct Hfalse |]. destruct m as [| m]; [exfalso; lia |].
  destruct e; cbn [endsWithin];
    try (intros Hk r; apply (IH r n m); [lia | apply Hk]).
  destruct n as [| n]; [intros Hfalse; destruct Hfalse |]. destruct m as [| m]; [exfalso; lia |].
  intros Hk r. apply (IH r n m); [lia | apply Hk].
Qed.

Lemma endsWithin_bind {A B : Type} (p : Prog A) (f : A -> Prog B) (n m : nat) :
  endsWithin n p → (∀ a, endsWithin m (f a)) → endsWithin (n + m) (bind p f).
Proof.
  revert n. induction p as [a | e k IH]; intros n Hp Hf; cbn [bind].
  - apply endsWithin_mono with m; [lia | apply Hf].
  - destruct n as [| n]; [destruct Hp |].
    destruct e; cbn [endsWithin plus] in *;
      try (intros r; apply IH; [apply Hp | exact Hf]).
    destruct n as [| n]; [destruct Hp |]. cbn [plus].
    intros r. apply IH; [apply Hp | exact Hf].
Qed.

Ltac prog_steps :=
  cbn [endsWithin bind mbind Prog_bind mret Prog_ret Msg Printf Publish SendRcv Now trigger].

Lemma handleRequest_endsWithin (req : Serializable) : endsWithin 5 (handleRequest req).
Proof.
  unfold handleRequest. prog_steps. intros _ [resp [e | ]] now; prog_steps; intros; exact I.
Qed.

Lemma handleError_endsWithin (err : error) : endsWithin 2 (handleError err).
Proof. unfold handleError. prog_steps. intros; exact I. Qed.

Lemma doCmdRequest_endsWithin `{lib : Z21Library} (g : Gateway) (msg : NatsMsg.t) :
  endsWithin 7 (doCmdRequest g msg).
Proof.
  unfold doCmdRequest. prog_steps. intros _.
  destruct (String.eqb _ _); prog_steps.
  - intros _. destruct (unmarshalCanDetector _) as [body | err].
    + apply handleRequest_endsWithin.
    + eapply endsWithin_mono; [| apply handleError_endsWithin]. lia.
  - intros; exact I.
Qed.

Lemma handleCmdMessage_endsWithin `{lib : Z21Library} (g : Gateway) (msg : NatsMsg.t) :
  endsWithin handlerSteps (handleCmdMessage g msg).
Proof.
  unfold handlerSteps, handleCmdMessage, defer. prog_steps. intros [|]; [| exact I].
  apply (endsWithin_bind _ _ 10 1); [| intros; prog_steps; intros; exact I].
  apply (endsWithin_bind _ _ 7 3); [apply doCmdRequest_endsWithin |].
  intros reply. destruct (json_Marshal (CmdReply.fields reply)) as [data | err]; prog_steps.
  - intros [perr | ]; prog_steps; intros; exact I.
  - intros; exact I.
Qed.

Lemma stepWorker_budget (o : Oracle) (n : nat) (done : bool) (st st' : GwState)
    (w w' : Worker) (n' b : nat) :
  stepWorker o n done st w = Some (n', st', w') →
  workerWithin b w →
  ∃ b', b = S b' ∧ workerWithin b' w'.
Proof.
  unfold stepWorker, workerWithin. destruct w as [h [[u | e k] | ctx req k]]; simpl.
  - discriminate.
  - destruct b as [| b']; [intros _ Hfalse; destruct Hfalse |]. intros Hstep Hin. exists b'.
    split; [reflexivity |].
    destruct e; simpl in Hstep, Hin;
      try (apply (inj Some) in Hstep; inversion Hstep; subst; simpl; apply Hin).
    + destruct b' as [| b'']; [contradiction |].
      apply (inj Some) in Hstep. inversion Hstep; subst; simpl. eauto.
    + destruct (o_admit o).
      * destruct (decide _); [| discriminate].
        apply (inj Some) in Hstep. inversion Hstep; subst; simpl. apply Hin.
      * destruct done; [| discriminate].
        apply (inj Some) in Hstep. inversion Hstep; subst; simpl. apply Hin.
    + destruct n; [discriminate |].
      apply (inj Some) in Hstep. inversion Hstep; subst; simpl. apply Hin.
  - intros Hstep (b' & -> & Hk). exists b'. split; [reflexivity |].
    apply (inj Some) in Hstep. inversion Hstep; subst; simpl. apply Hk.
Qed.

Lemma stepsOf_cons (i : nat) (a : Action) (acts : list Action) :
  stepsOf i (a :: acts) = (stepsOf i [a] + stepsOf i acts)%nat.
Proof. unfold stepsOf. simpl. destruct a; simpl; try reflexivity. destruct (bool_decide _); reflexivity. Qed.

Lemma exec_budget `{lib : Z21Library} (g : Gateway) (acts : list Action)
    (s s' : System) (used : nat → nat) :
  (∀ i w, workers s !! i = Some w →
          ∃ b, (used i + b = handlerSteps)%nat ∧ workerWithin b w) →
  (∀ i, (length (workers s) ≤ i)%nat → used i = 0%nat) →
  exec g acts s = Some s' →
  (∀ i w, workers s' !! i = Some w →
          ∃ b, (used i + stepsOf i acts + b = handlerSteps)%nat ∧ workerWithin b w)
  ∧ (∀ i, (length (workers s') ≤ i)%nat → (used i + stepsOf i acts = 0)%nat).
Proof.
  revert s used. induction acts as [| a acts IH]; intros s used Hin Hout Hexec;
    cbn [exec] in Hexec.
  - apply (inj Some) in Hexec; subst. unfold stepsOf. simpl. split.
    + intros i w Hw. destruct (Hin i w Hw) as (b & Hb & Hwb). exists b. split; [lia | exact Hwb].
    + intros i Hi. rewrite (Hout i Hi). reflexivity.
  - destruct (step g a s) as [s1 | ] eqn:Hstep; [| discriminate Hexec].
    cbn [mbind option_bind] in Hexec.
    assert (Hnext :
      (∀ i w, workers s1 !! i = Some w →
              ∃ b, (used i + stepsOf i [a] + b = handlerSteps)%nat ∧ workerWithin b w)
      ∧ (∀ i, (length (workers s1) ≤ i)%nat → (used i + stepsOf i [a] = 0)%nat)).
    { destruct a as [msg | | j o]; cbn [step] in Hstep.
      - apply (inj Some) in Hstep; subst s1. cbn [workers]. unfold stepsOf. simpl. split.
        + intros i w Hw. apply lookup_app_Some in Hw as [Hw | [Hlen Hw]].
          * destruct (Hin i w Hw) as (b & Hb & Hwb). exists b. split; [lia | exact Hwb].
          * apply list_lookup_singleton_Some in Hw as [Hi <-].
            exists handlerSteps. split; [rewrite (Hout i Hlen); lia |].
            apply handleCmdMessage_endsWithin.
        + intros i Hi. rewrite length_app in Hi. simpl in Hi. rewrite (Hout i); lia.
      - apply (inj Some) in Hstep; subst s1. cbn [workers]. unfold stepsOf. simpl. split.
        + intros i w Hw. destruct (Hin i w Hw) as (b & Hb & Hwb). exists b. split; [lia | exact Hwb].
        + intros i Hi. rewrite (Hout i Hi). reflexivity.
      - destruct (workers s !! j) as [wj | ] eqn:Hj; [| discriminate Hstep].
        cbn [mbind option_bind] in Hstep.
        destruct (stepWorker o (sem s) (cancelled s) (shared s) wj)
          as [[[n st] wj'] | ] eqn:Hsw; [| discriminate Hstep].
        cbn [mbind option_bind] in Hstep. apply (inj Some) in Hstep; subst s1.
        cbn [workers]. unfold stepsOf. cbn [List.filter length].
        pose proof (lookup_lt_Some _ _ _ Hj) as Hjlt. split.
        + intros i w Hw. destruct (decide (i = j)) as [-> | Hne].
          * rewrite list_lookup_insert_eq in Hw by exact Hjlt.
            apply (inj Some) in Hw; subst w.
            destruct (Hin j wj Hj) as (b & Hb & Hwb).
            destruct (stepWorker_budget _ _ _ _ _ _ _ _ _ Hsw Hwb) as (b' & -> & Hwb').
            exists b'. rewrite bool_decide_eq_true_2 by reflexivity. simpl.
            split; [lia | exact Hwb'].
          * rewrite list_lookup_insert_ne in Hw by congruence.
            destruct (Hin i w Hw) as (b & Hb & Hwb). exists b.
            rewrite bool_decide_eq_false_2 by exact Hne. simpl. split; [lia | exact Hwb].
        + intros i Hi. rewrite length_insert in Hi.
          rewrite bool_decide_eq_false_2 by lia. simpl. rewrite (Hout i Hi). reflexivity. }
    destruct Hnext as [Hin1 Hout1].
    destruct (IH s1 (fun i => (used i + stepsOf i [a])%nat) Hin1 Hout1 Hexec) as [Hin2 Hout2].
    split.
    + intros i w Hw. destruct (Hin2 i w Hw) as (b & Hb & Hwb). exists b.
      rewrite stepsOf_cons. split; [lia | exact Hwb].
    + intros i Hi. specialize (Hout2 i Hi). rewrite stepsOf_cons. lia.
Qed.

(** Handlers are short: in every run of the dispatcher, a worker takes at
    most twelve steps (the acquire, the device round trip as two, the
    clock, the publish, the log lines, the release), whatever the device,
    the serializer and the bus answer.  With the progress of a worker that
    holds a slot, every admitted handler that keeps being scheduled returns
    its slot. *)
Theorem handler_takes_at_most_twelve_steps `{lib : Z21Library} (g : Gateway)
    (acts : list Action) (s : System) (i : nat) :
  exec g acts init = Some s →
  (stepsOf i acts ≤ handlerSteps)%nat
  ∧ ((stepsOf i acts = handlerSteps)%nat →
     ∀ w, workers s !! i = Some w → finished w = true ∧ held w = false).
Proof.
  intros Hexec.
  destruct (exec_budget g acts init s (fun _ => 0%nat)) as [Hin Hout]; auto.
  { intros j w Hw. discriminate Hw. }
  destruct (workers s !! i) as [w | ] eqn:Hw.
  - destruct (Hin i w Hw) as (b & Hb & Hwb). split; [lia |].
    intros Hfull w' Hw'. apply (inj Some) in Hw'; subst w'.
    assert (b = 0%nat) as -> by lia.
    destruct (exec_inv g acts init s Hexec Inv_init) as (_ & _ & Hok).
    rewrite Forall_forall in Hok. specialize (Hok w (list_elem_of_lookup_2 _ _ _ Hw)).
    unfold workerWithin in Hwb. unfold workerOk in Hok. unfold finished.
    destruct w as [h [[u | e k] | ctx req k]]; cbn [control held] in *.
    + split; [reflexivity | exact Hok].
    + destruct Hwb.
    + destruct Hwb as (n' & Hn' & _). discriminate Hn'.
  - apply lookup_ge_None in Hw. specialize (Hout i Hw). split; [lia |].
    intros _ w Hw'. discriminate Hw'.
Qed.

Lemma handler_takes_at_most_twelve_steps_witness :
  let msg := {| NatsMsg.Subject := "z21.main.cmd.can.discover";
                NatsMsg.Reply := "_INBOX.1"; NatsMsg.Data := "{}" |} in
  let o := {| o_now := {| unixSec := 1700000000; zoneOffset := 0 |};
              o_device := fun _ _ => (Some (CanDetector "{7}"), None);
              o_bus := fun _ _ => Some "nats: connection closed";
              o_admit := true |} in
  let acts := Deliver msg :: replicate 12 (Step 0 o) in
  ∃ s, exec (lib := sampleLibrary) main acts init = Some s
       ∧ stepsOf 0 acts = handlerSteps
       ∧ (stepsOf 0 acts ≤ handlerSteps)%nat.
Proof.
  intros msg o acts.
  assert (Hobs : sem <$> exec (lib := sampleLibrary) main acts init = Some 0%nat)
    by (vm_compute; reflexivity).
  destruct (exec (lib := sampleLibrary) main acts init) as [s | ] eqn:Hexec;
    [| discriminate Hobs].
  exists s. split; [reflexivity |]. split; [reflexivity |].
  exact (proj1 (handler_takes_at_most_twelve_steps
                  (lib := sampleLibrary) main acts s 0 Hexec)).
Defined.

(** ** The reply on the wire *)

Lemma json_Marshal_CmdReply `{lib : Z21Library} (r : CmdReply.t) :
  json_Marshal (CmdReply.fields r)
  = let head := [("type", JString (CmdReply.Type_ r)); ("ok", JBool (CmdReply.Ok r))] in
    let tail :=
      ((if String.eqb (CmdReply.Error r) "" then []
        else [("error", JString (CmdReply.Error r))])
       ++ [("ts", JString (CmdReply.TS r))])%list in
    match CmdReply.Data r with
    | None => Ok_ (JObject (head ++ tail))
    | Some m =>
        match marshalSerializable m with
        | Ok_ j => Ok_ (JObject (head ++ ("reply", j) :: tail))
        | Err_ e => Err_ e
        end
    end.
Proof.
  destruct r as [ty ok [m | ] err ts]; unfold json_Marshal, CmdReply.fields;
    cbn [marshalFields goName tag val CmdReply.Type_ CmdReply.Ok CmdReply.Data
         CmdReply.Error CmdReply.TS].
  - change (fieldKey "Type" "type") with (Some ("type", false)).
    change (fieldKey "Ok" "ok") with (Some ("ok", false)).
    change (fieldKey "Data" "reply,omitempty") with (Some ("reply", true)).
    change (fieldKey "Error" "error,omitempty") with (Some ("error", true)).
    change (fieldKey "TS" "ts") with (Some ("ts", false)).
    cbn [andb isEmptyValue encodeValue]. destruct (marshalSerializable m) as [j | e].
    + destruct (String.eqb err ""); reflexivity.
    + destruct (String.eqb err ""); reflexivity.
  - change (fieldKey "Type" "type") with (Some ("type", false)).
    change (fieldKey "Ok" "ok") with (Some ("ok", false)).
    change (fieldKey "Data" "reply,omitempty") with (Some ("reply", true)).
    change (fieldKey "Error" "error,omitempty") with (Some ("error", true)).
    change (fieldKey "TS" "ts") with (Some ("ts", false)).
    cbn [andb isEmptyValue encodeValue]. destruct (String.eqb err ""); reflexivity.
Qed.

(** The reply object: every serialized [CmdReply] has the members [type],
    [ok] and [ts]; it has [reply] exactly when a payload is set and [error]
    exactly when the error text is not empty, in the order type, ok, reply,
    error, ts; and it fails to serialize only when its payload does. *)
Theorem CmdReply_json_members `{lib : Z21Library} (r : CmdReply.t) :
  match json_Marshal (CmdReply.fields r) with
  | Ok_ data =>
      keys data
      = (["type"; "ok"]
         ++ match CmdReply.Data r with Some _ => ["reply"] | None => [] end
         ++ (if String.eqb (CmdReply.Error r) "" then [] else ["error"])
         ++ ["ts"])%list
      ∧ member "type" data = Some (JString (CmdReply.Type_ r))
      ∧ member "ok" data = Some (JBool (CmdReply.Ok r))
      ∧ member "ts" data = Some (JString (CmdReply.TS r))
  | Err_ e => ∃ m, CmdReply.Data r = Some m ∧ marshalSerializable m = Err_ e
  end.
Proof.
  rewrite json_Marshal_CmdReply. cbv zeta.
  destruct (CmdReply.Data r) as [m | ].
  - destruct (marshalSerializable m) as [j | e] eqn:Hm; [| eauto].
    destruct (String.eqb (CmdReply.Error r) ""); repeat split; reflexivity.
  - destruct (String.eqb (CmdReply.Error r) ""); repeat split; reflexivity.
Qed.

Lemma doCmdRequest_negative_has_no_payload `{lib : Z21Library} (g : Gateway)
    (msg : NatsMsg.t) (o : Oracle) (st : GwState) :
  let reply := result_of (run (doCmdRequest g msg) o st) in
  CmdReply.Type_ reply = ""
  ∧ (CmdReply.Ok reply = false → CmdReply.Data reply = None)
  ∧ (CmdReply.Ok reply = true → CmdReply.Error reply = "").
Proof.
  cbv zeta. rewrite run_doCmdRequest. cbv zeta.
  destruct (String.eqb _ _); [| repeat split; auto; discriminate].
  destruct (unmarshalCanDetector _) as [body | err].
  - rewrite run_handleRequest.
    destruct (o_device o _ _) as [resp [e | ]]; repeat split; auto; discriminate.
  - rewrite run_handleError. repeat split; auto; discriminate.
Qed.

(** Every failure is answered.  When the handler is admitted and the reply
    of [doCmdRequest] is negative (an undecodable payload, a failed or
    timed-out round trip, an unknown subject), the reply has no payload, so
    it always serializes: exactly one message is published to the reply
    target, with [ok] false, no [reply] member, and the reply's timestamp. *)
Theorem negative_reply_is_always_published `{lib : Z21Library} (g : Gateway)
    (msg : NatsMsg.t) (o : Oracle) (st : GwState) :
  o_admit o = true →
  let reply := result_of (run (doCmdRequest g msg) o st) in
  CmdReply.Ok reply = false →
  ∃ data,
    publishes (trace_of (run (handleCmdMessage g msg) o st)) = [(replySubject g msg, data)]
    ∧ member "ok" data = Some (JBool false)
    ∧ member "type" data = Some (JString "")
    ∧ member "reply" data = None
    ∧ member "ts" data = Some (JString (CmdReply.TS reply)).
Proof.
  intros Hadmit reply Hneg.
  destruct (doCmdRequest_negative_has_no_payload g msg o st) as (Hty & Hdata & _).
  fold reply in Hty, Hdata. specialize (Hdata Hneg).
  pose proof (json_Marshal_CmdReply reply) as Hjson.
  rewrite Hdata, Hty, Hneg in Hjson. cbv zeta in Hjson.
  rewrite run_handleCmdMessage, Hadmit.
  destruct (run_doCmdRequest_quiet g msg o st) as [_ Hquiet].
  unfold reply, result_of in *.
  destruct (run (doCmdRequest g msg) o st) as [[r st1] tr1].
  cbn [fst snd trace_of] in *. rewrite Hjson.
  eexists. split.
  - match goal with
    | |- context [publishes (EvSemAcquire :: ?l)] =>
        change (publishes (EvSemAcquire :: l)) with (publishes l)
    end.
    rewrite !publishes_app, Hquiet. cbn [app publishes omap list_omap].
    destruct (o_bus o _ _); reflexivity.
  - destruct (String.eqb (CmdReply.Error r) ""); repeat split; reflexivity.
Qed.

Lemma negative_reply_is_always_published_witness :
  let msg := {| NatsMsg.Subject := "z21.main.cmd.can.discover";
                NatsMsg.Reply := "_INBOX.1"; NatsMsg.Data := "{}" |} in
  let o := sampleOracle (None, Some "context deadline exceeded") in
  (o_admit o = true
   ∧ CmdReply.Ok (result_of (run (doCmdRequest (lib := sampleLibrary) main msg) o offline))
     = false)
  ∧ ∃ data,
      publishes (trace_of (run (handleCmdMessage (lib := sampleLibrary) main msg) o offline))
      = [("_INBOX.1", data)]
      ∧ member "ok" data = Some (JBool false).
Proof.
  intros msg o. split; [split; reflexivity |].
  destruct (negative_reply_is_always_published (lib := sampleLibrary) main msg o offline
              eq_refl eq_refl) as (data & Hpub & Hok & _).
  exists data. split; [exact Hpub | exact Hok].
Defined.

(** ** Configuration *)

Lemma Parse_settings (usage : UsageResult) (ss : list Setting) (rest : list string)
    (vals : ConfigVals) :
  endsFlags rest →
  Parse ConfigVar ConfigVals setVar configFlags usage None vals (render ss ++ rest)
  = Returns (let '(n, a, u) := vals in
             (lastFor z21Name ss n, lastFor z21Addr ss a, lastFor natsURL ss u)).
Proof.
  intros Hrest. revert vals. induction ss as [| s ss IH]; intros [[n a] u].
  - unfold render. cbn [fmap list_fmap concat app lastFor].
    destruct rest as [| x rest]; [reflexivity |]. cbn [Parse].
    destruct Hrest as [-> | ->]; reflexivity.
  - unfold render. cbn [fmap list_fmap concat]. fold (render ss).
    rewrite <- app_assoc. cbn [lastFor].
    destruct s as [f two eq v].
    destruct f, two, eq; cbn [renderSetting sflag twoDashes withEquals svalue flagText];
      simpl; rewrite IH; reflexivity.
Qed.

(** Flags over environment over built-in defaults.  For a command line of
    defined flags in any of their spellings ([-n v], [--n v], [-n=v],
    [--z21_name=v], ...), [LoadConfig] returns, and each setting is the
    value of the last flag bound to it (the long name and the shorthand are
    the same variable), else the environment variable when it is set and
    not empty, else the library default.  Arguments from [--] or from the
    first non-flag on are ignored.  The heartbeat interval of the
    configuration is always 30 s. *)
Theorem LoadConfig_flags_over_environment `{dflt : Defaults} (env : gmap string string)
    (ss : list Setting) (rest : list string) :
  endsFlags rest →
  LoadConfig env (render ss ++ rest)
  = Returns {| Config.Z21Name := lastFor z21Name ss (getenv env "Z21_NAME" z21_DefaultName);
               Config.Z21Addr := lastFor z21Addr ss (getenv env "Z21_ADDR" z21_DefaultURL);
               Config.NATSURL := lastFor natsURL ss (getenv env "NATS_URL" nats_DefaultURL);
               Config.HeartbeatInterval := 30000000000%Z;
               Config.Logger := {| minLevel := DebugLevel;
                                   context := [("component", "z21gw")];
                                   timestamps := true |} |}.
Proof.
  intros Hrest. unfold LoadConfig. rewrite (Parse_settings _ ss rest _ Hrest). reflexivity.
Qed.

Lemma LoadConfig_flags_over_environment_witness :
  let env : gmap string string := <["Z21_NAME" := "depot"]> (<["NATS_URL" := ""]> ∅) in
  let ss := [ {| sflag := F_n; twoDashes := false; withEquals := false; svalue := "yard" |};
              {| sflag := F_nats_url; twoDashes := true; withEquals := true;
                 svalue := "nats://bus:4222" |};
              {| sflag := F_z21_name; twoDashes := true; withEquals := false;
                 svalue := "west" |} ] in
  let rest := ["--"; "-zc"; "10.0.0.1"] in
  endsFlags rest
  ∧ (render ss ++ rest)%list
    = ["-n"; "yard"; "--nats_url=nats://bus:4222"; "--z21_name"; "west";
       "--"; "-zc"; "10.0.0.1"]
  ∧ LoadConfig (dflt := sampleDefaults) env (render ss ++ rest)
    = Returns {| Config.Z21Name := "west";
                 Config.Z21Addr := "127.0.0.1:21105";
                 Config.NATSURL := "nats://bus:4222";
                 Config.HeartbeatInterval := 30000000000%Z;
                 Config.Logger := {| minLevel := DebugLevel;
                                     context := [("component", "z21gw")];
                                     timestamps := true |} |}.
Proof.
  intros env ss rest.
  assert (Hrest : endsFlags rest) by (right; reflexivity).
  split; [exact Hrest |]. split; [reflexivity |].
  rewrite (LoadConfig_flags_over_environment (dflt := sampleDefaults) env ss rest Hrest).
  vm_compute. reflexivity.
Defined.




(** An environment variable set to the empty string counts as not set:
    [getenv] returns the default when the variable is missing or empty, and
    the variable's value otherwise; other variables do not matter. *)
Theorem getenv_empty_is_unset (env : gmap string string) (key def : string) :
  getenv (<[key := ""]> env) key def = def
  ∧ getenv (delete key env) key def = def
  ∧ (∀ v, v ≠ "" → getenv (<[key := v]> env) key def = v)
  ∧ (∀ k v, k ≠ key → getenv (<[k := v]> env) key def = getenv env key def).
Proof.
  unfold getenv, Getenv. repeat split.
  - rewrite lookup_insert_eq. reflexivity.
  - rewrite lookup_delete_eq. reflexivity.
  - intros v Hv. rewrite lookup_insert_eq. simpl.
    apply String.eqb_neq in Hv. rewrite Hv. reflexivity.
  - intros k v Hk. rewrite lookup_insert_ne by exact Hk. reflexivity.
Qed.
